(** * TestAgent: the orchestration state machine and its failure-recovery engine

    A shallow embedding of [ai_web_tester/agent] (state.py, graph.py and the
    six node modules) and theorems about retry routing, the retry counter,
    validation, selector repair, code emission, execution and reporting.

    Conventions of the embedding:
    - a Python [str] is a Rocq [string]; the model is exact for ASCII text
      (non-ASCII literals of the source are carried as their UTF-8 bytes);
    - a Python [int] is a [Z];
    - an [Optional[str]] is an [option string]; [None] is falsy, a string is
      truthy when it is not empty;
    - the [AgentState] dict is a record that every node takes and returns;
    - [print] calls write to the console only and are left out;
    - what the nodes obtain from outside the process (the language model, the
      Python parser, the clock, running a generated script) is a variable of
      the section that needs it. *)

From Stdlib Require Import String Ascii List ZArith Lia Bool DecimalString.
From Stdlib Require Import Sorted Permutation.
Import ListNotations.

Local Open Scope string_scope.
Local Open Scope list_scope.

(** ** Python strings *)

Module PyStr.

(** The double-quote and backslash characters, and a newline. *)
Definition dq : string := String (ascii_of_nat 34) EmptyString.
Definition bs : string := String (ascii_of_nat 92) EmptyString.
Definition nl : string := String (ascii_of_nat 10) EmptyString.

(** Truthiness of a [str] and of an [Optional[str]]. *)
Definition truthy (s : string) : bool :=
  match s with EmptyString => false | String _ _ => true end.

Definition truthy_opt (o : option string) : bool :=
  match o with Some s => truthy s | None => false end.

(** [a or b] on optional strings. *)
Definition py_or (a b : option string) : option string :=
  if truthy_opt a then a else b.

(** What an f-string prints for an [Optional[str]]. *)
Definition fmt_opt (o : option string) : string :=
  match o with Some s => s | None => "None" end.

(** What an f-string prints for an [int]. *)
Definition fmt_int (z : Z) : string := NilZero.string_of_int (Z.to_int z).

(** [needle in hay]. *)
Fixpoint contains (needle hay : string) : bool :=
  String.prefix needle hay ||
  match hay with
  | EmptyString => false
  | String _ t => contains needle t
  end.

(** [s.startswith(p)]. *)
Definition startswith (s p : string) : bool := String.prefix p s.

(** [s.lower()] on ASCII. *)
Definition lower_ascii (c : ascii) : ascii :=
  let n := nat_of_ascii c in
  if (65 <=? n)%nat && (n <=? 90)%nat then ascii_of_nat (n + 32) else c.

Fixpoint lower (s : string) : string :=
  match s with
  | EmptyString => EmptyString
  | String c t => String (lower_ascii c) (lower t)
  end.

(** [s.replace(old, new)] for a one-character [old]. *)
Fixpoint replace (old : ascii) (new : string) (s : string) : string :=
  match s with
  | EmptyString => EmptyString
  | String c t =>
      if Ascii.eqb c old then new ++ replace old new t
      else String c (replace old new t)
  end%string.

(** [s.count(c)] for a one-character [c]. *)
Fixpoint count (c : ascii) (s : string) : Z :=
  match s with
  | EmptyString => 0
  | String a t => (if Ascii.eqb a c then 1 else 0) + count c t
  end%Z.

(** [c * n]: a character repeated. *)
Fixpoint repeat (c : ascii) (n : nat) : string :=
  match n with
  | O => EmptyString
  | S k => String c (repeat c k)
  end.

(** [s] without the prefix [p], when it has it. *)
Fixpoint strip_prefix (p s : string) : option string :=
  match p, s with
  | EmptyString, _ => Some s
  | String a p', String b s' =>
      if Ascii.eqb a b then strip_prefix p' s' else None
  | String _ _, EmptyString => None
  end.

End PyStr.

(** ** The fragment of [re] the source uses

    Patterns are sequences of literals, one group of literal alternatives, and
    greedy repetitions of a character class, with Python's backtracking order:
    a repetition first takes as much as it can and gives characters back one
    by one while the rest of the pattern fails. *)

Module Re.

Inductive cls : Type :=
| Any                     (* .      : any character but a newline *)
| Not (c : ascii)         (* [^c]   *)
| NotSpace.               (* [^\s]  *)

Inductive item : Type :=
| Lit (s : string)
| Alt (alts : list string)                (* (a|b|c), a capturing group *)
| Star (c : cls)                    (* a class, zero or more times *)
| GroupStar (c : cls)               (* the same, as a capturing group *)
| GroupPlus (c : cls).              (* one or more times, capturing *)

Definition is_space (a : ascii) : bool :=
  let n := nat_of_ascii a in
  ((9 <=? n) && (n <=? 13) || (28 <=? n) && (n <=? 32))%nat.

Definition cls_match (c : cls) (a : ascii) : bool :=
  match c with
  | Any => negb (Ascii.eqb a (ascii_of_nat 10))
  | Not x => negb (Ascii.eqb a x)
  | NotSpace => negb (is_space a)
  end.

(** The groups captured so far, and what is left of the subject. *)
Definition result : Type := list string * string.

Fixpoint rep_greedy (c : cls) (k : string -> string -> option result)
    (acc s : string) : option result :=
  match s with
  | String a t =>
      if cls_match c a then
        match rep_greedy c k (acc ++ String a EmptyString)%string t with
        | Some r => Some r
        | None => k acc s
        end
      else k acc s
  | EmptyString => k acc s
  end.

Fixpoint first_alt (alts : list string)
    (k : string -> string -> option result) (s : string) : option result :=
  match alts with
  | [] => None
  | a :: rest =>
      match PyStr.strip_prefix a s with
      | Some s' =>
          match k a s' with
          | Some r => Some r
          | None => first_alt rest k s
          end
      | None => first_alt rest k s
      end
  end.

(** [re.match]: the pattern anchored at the start of [s]. *)
Fixpoint match_items (p : list item) (caps : list string) (s : string)
    : option result :=
  match p with
  | [] => Some (caps, s)
  | Lit l :: p' =>
      match PyStr.strip_prefix l s with
      | Some s' => match_items p' caps s'
      | None => None
      end
  | Alt alts :: p' =>
      first_alt alts (fun a s' => match_items p' (caps ++ [a]) s') s
  | Star c :: p' =>
      rep_greedy c (fun _ s' => match_items p' caps s') EmptyString s
  | GroupStar c :: p' =>
      rep_greedy c (fun g s' => match_items p' (caps ++ [g]) s')
        EmptyString s
  | GroupPlus c :: p' =>
      rep_greedy c
        (fun g s' =>
           if PyStr.truthy g then match_items p' (caps ++ [g]) s' else None)
        EmptyString s
  end.

(** [re.search]: the leftmost position where the pattern matches; the
    captured groups of that match. *)
Fixpoint search (p : list item) (s : string) : option (list string) :=
  match match_items p [] s with
  | Some (caps, _) => Some caps
  | None =>
      match s with
      | EmptyString => None
      | String _ t => search p t
      end
  end.

(** [re.findall]: the groups of every match, scanning left to right without
    overlap. A scan of [s] takes at most [length s + 1] rounds. *)
Fixpoint findall_from (fuel : nat) (p : list item) (s : string)
    : list (list string) :=
  match fuel with
  | O => []
  | S fuel' =>
      match match_items p [] s with
      | Some (caps, rest) =>
          if (String.length rest <? String.length s)%nat
          then caps :: findall_from fuel' p rest
          else caps :: match s with
                       | EmptyString => []
                       | String _ t => findall_from fuel' p t
                       end
      | None =>
          match s with
          | EmptyString => []
          | String _ t => findall_from fuel' p t
          end
      end
  end.

Definition findall (p : list item) (s : string) : list (list string) :=
  findall_from (S (String.length s)) p s.

(** Every character of [s] is in the class [c]. *)
Fixpoint all_in (c : cls) (s : string) : bool :=
  match s with
  | EmptyString => true
  | String a t => cls_match c a && all_in c t
  end.

(** [match.group(n)], groups numbered from 1. *)
Definition group (n : nat) (caps : list string) : option string :=
  nth_error caps (n - 1).

End Re.

(** ** state.py: the shared state model *)

Module TestAction.
Record t : Type := mk {
  action : string;
  target : option string;
  selector : option string;
  value : option string
}.
Definition set_selector (a : t) (sel : option string) : t :=
  mk (action a) (target a) sel (value a).
End TestAction.

Module ValidationResult.
Record t : Type := mk {
  is_valid : bool;
  error_message : option string;
  error_line : option Z
}.
Definition set_is_valid (v : t) (b : bool) : t :=
  mk b (error_message v) (error_line v).
End ValidationResult.

(** A step result comes out of the executed script; the nodes read it with
    [.get], so a key may be missing ([None]). *)
Module StepResult.
Record t : Type := mk {
  step_number : Z;
  action : string;
  selector : option string;
  status : option string;
  error : option string;
  time_ms : option Z;
  screenshot : option string
}.
End StepResult.

Module ExecutionResult.
Record t : Type := mk {
  success : bool;
  steps : list StepResult.t;
  total_time_ms : Z;
  console_logs : list string;
  error_message : option string
}.
End ExecutionResult.

Module TestReport.
Record t : Type := mk {
  status : string;
  total_steps : Z;
  passed : Z;
  failed : Z;
  execution_time_ms : Z;
  steps : list StepResult.t;
  failure_reason : option string;
  screenshots : list string;
  human_readable : string
}.
End TestReport.

Module State.

Record AgentState : Type := mkAgentState {
  instruction : string;
  base_url : string;
  parsed_actions : list TestAction.t;
  generated_code : string;
  test_file_path : string;
  validation_result : ValidationResult.t;
  execution_result : ExecutionResult.t;
  report : TestReport.t;
  errors : list string;
  retry_count : Z;
  max_retries : Z
}.

(** [state[key] = v], one definition per key that some node assigns. *)
Definition set_parsed_actions (s : AgentState) (v : list TestAction.t) :=
  mkAgentState (instruction s) (base_url s) v (generated_code s)
    (test_file_path s) (validation_result s) (execution_result s)
    (report s) (errors s) (retry_count s) (max_retries s).

Definition set_generated_code (s : AgentState) (v : string) :=
  mkAgentState (instruction s) (base_url s) (parsed_actions s) v
    (test_file_path s) (validation_result s) (execution_result s)
    (report s) (errors s) (retry_count s) (max_retries s).

Definition set_test_file_path (s : AgentState) (v : string) :=
  mkAgentState (instruction s) (base_url s) (parsed_actions s)
    (generated_code s) v (validation_result s) (execution_result s)
    (report s) (errors s) (retry_count s) (max_retries s).

Definition set_validation_result (s : AgentState) (v : ValidationResult.t) :=
  mkAgentState (instruction s) (base_url s) (parsed_actions s)
    (generated_code s) (test_file_path s) v (execution_result s)
    (report s) (errors s) (retry_count s) (max_retries s).

Definition set_execution_result (s : AgentState) (v : ExecutionResult.t) :=
  mkAgentState (instruction s) (base_url s) (parsed_actions s)
    (generated_code s) (test_file_path s) (validation_result s) v
    (report s) (errors s) (retry_count s) (max_retries s).

Definition set_report (s : AgentState) (v : TestReport.t) :=
  mkAgentState (instruction s) (base_url s) (parsed_actions s)
    (generated_code s) (test_file_path s) (validation_result s)
    (execution_result s) v (errors s) (retry_count s) (max_retries s).

Definition set_retry_count (s : AgentState) (v : Z) :=
  mkAgentState (instruction s) (base_url s) (parsed_actions s)
    (generated_code s) (test_file_path s) (validation_result s)
    (execution_result s) (report s) (errors s) v (max_retries s).

(** [state["errors"].append(msg)]. *)
Definition errors_append (s : AgentState) (msg : string) :=
  mkAgentState (instruction s) (base_url s) (parsed_actions s)
    (generated_code s) (test_file_path s) (validation_result s)
    (execution_result s) (report s) (errors s ++ [msg]) (retry_count s)
    (max_retries s).

Definition create_initial_state (instruction base_url : string)
    : AgentState :=
  mkAgentState instruction base_url [] "" ""
    (ValidationResult.mk false None None)
    (ExecutionResult.mk false [] 0 [] None)
    (TestReport.mk "PENDING" 0 0 0 0 [] None [] "")
    [] 0 3.

End State.

(** ** nodes/error_handler.py *)

Module ErrorHandler.
Import State.

(** The table, in the order the dict literal lists its keys. *)
Definition SELECTOR_ALTERNATIVES : list (string * list string) :=
  [ ("button",
      [ "button[type='submit']"; "button"; "input[type='submit']";
        "[role='button']" ]);
    ("username",
      [ "input[name='username']"; "input[id='username']";
        "input[type='text']"; "#username"; "[placeholder*='user']" ]);
    ("password",
      [ "input[name='password']"; "input[id='password']";
        "input[type='password']"; "#password"; "[placeholder*='pass']" ]);
    ("email",
      [ "input[name='email']"; "input[id='email']"; "input[type='email']";
        "#email"; "[placeholder*='email']" ]);
    ("search",
      [ "input[name='search']"; "input[name='query']"; "input[id='search']";
        "input[type='search']"; "#search"; "[placeholder*='search']" ]);
    ("login",
      [ "button:has-text('Login')"; "button:has-text('Sign In')";
        "button:has-text('Log In')"; "input[type='submit']";
        "button[type='submit']" ]) ].

Definition dqc : ascii := ascii_of_nat 34.

Definition patterns : list (list Re.item) :=
  [ [ Re.Lit ("Selector " ++ PyStr.dq); Re.GroupPlus (Re.Not dqc);
      Re.Lit (PyStr.dq ++ " not found") ];
    [ Re.Lit "locator.click: Timeout"; Re.Star Re.Any;
      Re.Lit ("selector=" ++ PyStr.dq); Re.GroupPlus (Re.Not dqc);
      Re.Lit PyStr.dq ];
    [ Re.Lit ("waiting for selector " ++ PyStr.dq);
      Re.GroupPlus (Re.Not dqc); Re.Lit PyStr.dq ];
    [ Re.Lit "Error: "; Re.GroupPlus Re.NotSpace; Re.Lit " not found" ] ]%string.

Fixpoint first_match (ps : list (list Re.item)) (error_message : string)
    : option string :=
  match ps with
  | [] => None
  | pattern :: rest =>
      match Re.search pattern error_message with
      | Some caps => Re.group 1 caps
      | None => first_match rest error_message
      end
  end.

Definition extract_failed_selector (error_message : string)
    : option string :=
  first_match patterns error_message.

(** The keyword loop: every keyword found in the lower-cased selector
    contributes its whole list. *)
Fixpoint keyword_alternatives (table : list (string * list string))
    (selector_lower : string) : list string :=
  match table with
  | [] => []
  | (keyword, selectors) :: rest =>
      (if PyStr.contains keyword selector_lower then selectors else [])
      ++ keyword_alternatives rest selector_lower
  end.

(** The loop that removes duplicates, first occurrence kept. *)
Fixpoint unique_from (seen : list string) (alternatives : list string)
    : list string :=
  match alternatives with
  | [] => []
  | alt :: rest =>
      if existsb (String.eqb alt) seen then unique_from seen rest
      else alt :: unique_from (alt :: seen) rest
  end.

Definition name_pattern : list Re.item :=
  [ Re.Lit "name='"; Re.GroupPlus (Re.Not "'"%char); Re.Lit "'" ].

Definition suggest_alternative_selectors (failed_selector : string)
    : list string :=
  let selector_lower := PyStr.lower failed_selector in
  let alternatives :=
    keyword_alternatives SELECTOR_ALTERNATIVES selector_lower in
  let alternatives :=
    filter (fun s => negb (String.eqb s failed_selector)) alternatives in
  let alternatives :=
    if PyStr.contains "button" selector_lower
       || PyStr.contains "submit" selector_lower
    then alternatives
           ++ [ "button:first-of-type"; "form button"; "[type='submit']" ]
    else if PyStr.contains "input" selector_lower then
      match Re.search name_pattern failed_selector with
      | Some caps =>
          match Re.group 1 caps with
          | Some field_name =>
              alternatives
                ++ [ ("#" ++ field_name)%string;
                     ("input[id='" ++ field_name ++ "']")%string;
                     ("[placeholder*='" ++ field_name ++ "']")%string ]
          | None => alternatives
          end
      | None => alternatives
      end
    else alternatives in
  firstn 5 (unique_from [] alternatives).

Definition selector_is (failed_selector : string) (a : TestAction.t)
    : bool :=
  match TestAction.selector a with
  | Some sel => String.eqb sel failed_selector
  | None => false
  end.

(** The body of the loop over the actions, on one action. *)
Definition rewrite_one (failed_selector new_selector : string)
    (a : TestAction.t) : TestAction.t :=
  if selector_is failed_selector a
  then TestAction.set_selector a (Some new_selector) else a.

(** The loop over [state["parsed_actions"]]: the rewritten list and whether
    any action was rewritten. *)
Fixpoint rewrite_actions (failed_selector new_selector : string)
    (actions : list TestAction.t) : list TestAction.t * bool :=
  match actions with
  | [] => ([], false)
  | a :: rest =>
      let (rest', modified) :=
        rewrite_actions failed_selector new_selector rest in
      if selector_is failed_selector a
      then (TestAction.set_selector a (Some new_selector) :: rest', true)
      else (a :: rest', modified)
  end.

Definition modify_actions_with_alternatives (state : AgentState)
    (failed_selector : string) (alternatives : list string)
    : AgentState * bool :=
  match alternatives with
  | [] => (state, false)
  | new_selector :: _ =>
      let (actions, modified) :=
        rewrite_actions failed_selector new_selector
          (parsed_actions state) in
      (set_parsed_actions state actions, modified)
  end.

(** The message of the first step that failed with a message, if any. *)
Fixpoint first_step_error (steps : list StepResult.t) : option string :=
  match steps with
  | [] => None
  | step :: rest =>
      if match StepResult.status step with
         | Some st => String.eqb st "fail"
         | None => false
         end && PyStr.truthy_opt (StepResult.error step)
      then StepResult.error step
      else first_step_error rest
  end.

(** The failure message [handle_error] analyses: validation first, then
    execution, where a step-level message goes before the run-level one. *)
Definition error_message_of (state : AgentState) : option string :=
  if negb (ValidationResult.is_valid (validation_result state)) then
    ValidationResult.error_message (validation_result state)
  else if negb (ExecutionResult.success (execution_result state)) then
    match first_step_error (ExecutionResult.steps (execution_result state)) with
    | Some e => Some e
    | None => ExecutionResult.error_message (execution_result state)
    end
  else None.

Definition handle_error (state : AgentState) : AgentState :=
  let retry_count := retry_count state in
  let max_retries := max_retries state in
  if (retry_count >=? max_retries)%Z then
    errors_append state
      ("Maximum retries (" ++ PyStr.fmt_int max_retries ++ ") exceeded")%string
  else
    let state := set_retry_count state (retry_count + 1)%Z in
    match error_message_of state with
    | Some error_message =>
        if PyStr.truthy error_message then
          match extract_failed_selector error_message with
          | Some failed_selector =>
              if PyStr.truthy failed_selector then
                let alternatives :=
                  suggest_alternative_selectors failed_selector in
                match alternatives with
                | [] => state
                | _ :: _ =>
                    let (state', modified) :=
                      modify_actions_with_alternatives state failed_selector
                        alternatives in
                    if modified then
                      let state' := set_generated_code state' "" in
                      set_validation_result state'
                        (ValidationResult.set_is_valid
                           (validation_result state') false)
                    else state'
                end
              else state
          | None => state
          end
        else state
    | None => state
    end.

Definition should_retry (state : AgentState) : bool :=
  let retry_count := retry_count state in
  let max_retries := max_retries state in
  if (retry_count >=? max_retries)%Z then false
  else if negb (ValidationResult.is_valid (validation_result state)) then true
  else if negb (ExecutionResult.success (execution_result state)) then true
  else false.

End ErrorHandler.

(** ** nodes/executor.py

    The executor comes first: the validator and the graph use its types of
    faults and of outcomes. *)

Module Executor.
Import State PyStr.

(** A raised Python exception: whether it is an instance of [Exception]
    ([SystemExit] and [KeyboardInterrupt] are not), the name of its type,
    [str(e)] and [traceback.format_exc()]. *)
Record PyFault : Type := mkFault {
  is_exception : bool;
  type_name : string;
  message : string;
  traceback : string
}.

(** The dict a script's [run_test] returns, read with [.get]. *)
Record RawResult : Type := mkRawResult {
  success : option bool;
  steps : option (list StepResult.t);
  total_time_ms : option Z;
  console_logs : option (list string);
  error_message : option string
}.

Inductive PyValue : Type :=
| Dict (d : RawResult)
| NotDict (type_of : string).        (* any object without [.get] *)

(** What happens when the script text is compiled and executed and its
    [run_test] is called. *)
Inductive ScriptRun : Type :=
| ExecRaises (e : PyFault)           (* compile or the module body raises *)
| NoRunTest                          (* the body binds no [run_test] *)
| RunTestRaises (e : PyFault)
| RunTestReturns (v : PyValue).

(** A call either returns or lets an exception through to its caller. *)
Inductive outcome (A : Type) : Type :=
| Returned (a : A)
| Raised (e : PyFault).
Arguments Returned {A} a.
Arguments Raised {A} e.

Definition failure_dict (msg : string) : PyValue :=
  Dict (mkRawResult (Some false) (Some []) (Some 0%Z) (Some []) (Some msg)).

Section WithInterpreter.

Variable py_run : string -> ScriptRun.

(** The body of the [try]; [except Exception] takes the faults that are
    instances of [Exception], the others go through. Creating the
    directories and the temporary file is taken to succeed. *)
Definition execute_code_safely (code : string) : outcome PyValue :=
  let on_fault (e : PyFault) :=
    if is_exception e then
      Returned
        (failure_dict
           (type_name e ++ ": " ++ message e ++ nl ++ traceback e)%string)
    else Raised e in
  match py_run code with
  | ExecRaises e => on_fault e
  | NoRunTest =>
      Returned
        (failure_dict "run_test function not found in generated code")
  | RunTestRaises e => on_fault e
  | RunTestReturns result => Returned result
  end.

Definition save_test_file (code : string) (timestamp : Z) : string :=
  ("playwright_tests" ++ "/" ++ "generated_test_" ++ fmt_int timestamp
     ++ ".py")%string.

(** [timestamp] is [int(time.time())] when the file is saved and
    [total_time] the measured duration of the run in milliseconds. *)
Definition execute_test (timestamp total_time : Z) (state : AgentState)
    : outcome AgentState :=
  let code := generated_code state in
  if negb (truthy code) then
    Returned
      (set_execution_result state
         (ExecutionResult.mk false [] 0 [] (Some "No code to execute")))
  else if negb (ValidationResult.is_valid (validation_result state)) then
    Returned
      (set_execution_result state
         (ExecutionResult.mk false [] 0 []
            (Some ("Code validation failed: "
                     ++ fmt_opt (ValidationResult.error_message
                                   (validation_result state)))%string)))
  else
    let state := set_test_file_path state (save_test_file code timestamp) in
    match execute_code_safely code with
    | Raised e => Raised e
    | Returned (NotDict type_of) =>
        Raised
          (mkFault true "AttributeError"
             ("'" ++ type_of ++ "' object has no attribute 'get'")%string
             "")
    | Returned (Dict result) =>
        Returned
          (set_execution_result state
             (ExecutionResult.mk
                (match success result with Some b => b | None => false end)
                (match steps result with Some l => l | None => [] end)
                (match total_time_ms result with
                 | Some t => t
                 | None => total_time
                 end)
                (match console_logs result with
                 | Some l => l
                 | None => []
                 end)
                (error_message result)))
    end.

End WithInterpreter.

End Executor.

(** ** nodes/validator.py *)

Module Validator.
Import State PyStr.

(** A check returns a triple (the syntax check) or a pair (the others). *)
Inductive check_result : Type :=
| Triple (ok : bool) (msg : string) (line : Z)
| Pair (ok : bool) (msg : string).

Inductive ParseOutcome : Type :=
| Parses
| SyntaxError (msg : string) (lineno : option Z)
| ParseRaises (e : Executor.PyFault).

Section WithParser.

(** [ast.parse] is a variable: the text parses, or [ast.parse] raises a
    [SyntaxError] with a message and a line number, or it raises something
    else (a [ValueError] for a text with a null character, a
    [RecursionError], a [MemoryError]). *)
Variable ast_parse : string -> ParseOutcome.

(** The [except] clause takes a [SyntaxError] only; any other fault leaves
    the function. *)
Definition check_syntax (code : string) : Executor.outcome check_result :=
  match ast_parse code with
  | Parses => Executor.Returned (Triple true "" 0)
  | SyntaxError msg lineno =>
      Executor.Returned
        (Triple false ("Syntax error: " ++ msg)%string
           match lineno with
           | Some l => if (l =? 0)%Z then 0%Z else l
           | None => 0%Z
           end)
  | ParseRaises e => Executor.Raised e
  end.

Definition required_imports : list string :=
  [ "playwright"; "sync_playwright" ].

Fixpoint first_missing (imports : list string) (code : string)
    : check_result :=
  match imports with
  | [] => Pair true ""
  | imp :: rest =>
      if negb (contains imp code)
      then Pair false ("Missing required import: " ++ imp)%string
      else first_missing rest code
  end.

Definition check_required_imports (code : string) : check_result :=
  first_missing required_imports code.

Definition check_function_structure (code : string) : check_result :=
  if negb (contains "def run_test" code)
  then Pair false "Missing run_test function"
  else if negb (contains "launch(" code)
  then Pair false "Missing browser launch"
  else if negb (contains "close()" code)
  then Pair false "Missing browser close"
  else Pair true "".

Definition selector_pattern : list Re.item :=
  [ Re.Lit "page."; Re.Alt [ "click"; "fill"; "wait_for_selector" ];
    Re.Lit ("(" ++ dq)%string; Re.GroupStar (Re.Not (ascii_of_nat 34));
    Re.Lit (dq ++ ")")%string ].

(** The loop over the matches: each match is the tuple of its two
    groups, and [match[1]] is the second. *)
Fixpoint first_unescaped (matches : list (list string)) : check_result :=
  match matches with
  | [] => Pair true ""
  | m :: rest =>
      let selector := nth 1 m "" in
      if (count (ascii_of_nat 34) selector >? 0)%Z
      then Pair false ("Unescaped quotes in selector: " ++ selector)%string
      else first_unescaped rest
  end.

(** The condition of the first test is
    [A in code or B] where [B] is a string literal and not a membership
    test: the disjunction takes the truth value of that literal. *)
Definition check_selectors (code : string) : check_result :=
  if contains ("page.click(" ++ dq ++ dq ++ ")")%string code
     || truthy ("page.fill(" ++ dq ++ dq ++ ",")%string
  then Pair false "Empty selector detected"
  else first_unescaped (Re.findall selector_pattern code).

(** The loop over the four named results, stopping at the first one
    that failed. *)
Fixpoint first_failure (validations : list (string * check_result))
    : ValidationResult.t :=
  match validations with
  | [] => ValidationResult.mk true None None
  | (check_name, result) :: rest =>
      let '(is_valid, error_msg, error_line) :=
        match result with
        | Triple ok msg line => (ok, msg, line)
        | Pair ok msg => (ok, msg, 0%Z)
        end in
      if negb is_valid then
        ValidationResult.mk false
          (Some (check_name ++ " check failed: " ++ error_msg)%string)
          (Some error_line)
      else first_failure rest
  end.

(** The list of the four results is built before the loop, the syntax
    check first: a fault that leaves [check_syntax] leaves [validate_code]
    too, before the state is touched. *)
Definition validate_code (state : AgentState)
    : Executor.outcome AgentState :=
  let code := generated_code state in
  if negb (truthy code) then
    Executor.Returned
      (set_validation_result state
         (ValidationResult.mk false (Some "No code to validate") (Some 0%Z)))
  else
    match check_syntax code with
    | Executor.Raised e => Executor.Raised e
    | Executor.Returned syntax =>
        let validations :=
          [ ("Syntax", syntax);
            ("Imports", check_required_imports code);
            ("Structure", check_function_structure code);
            ("Selectors", check_selectors code) ] in
        Executor.Returned
          (set_validation_result state (first_failure validations))
    end.

End WithParser.

Definition is_valid (state : AgentState) : bool :=
  ValidationResult.is_valid (validation_result state).

End Validator.

(** ** nodes/code_generator.py *)

Module CodeGenerator.
Import State PyStr.

Definition PLAYWRIGHT_TEMPLATE : string :=
  String.concat nl
  [
    (dq ++ dq ++ dq)%string;
    "Auto-generated Playwright Test Script";
    "Generated: {timestamp}";
    "Instruction: {instruction}";
    (dq ++ dq ++ dq)%string;
    "";
    "import time";
    "from playwright.sync_api import sync_playwright, expect";
    "";
    "";
    "def run_test():";
    ("    " ++ dq ++ dq ++ dq ++ "Execute the generated test case." ++ dq ++ dq ++ dq)%string;
    "    results = {{";
    ("        " ++ dq ++ "steps" ++ dq ++ ": [],")%string;
    ("        " ++ dq ++ "console_logs" ++ dq ++ ": [],")%string;
    ("        " ++ dq ++ "success" ++ dq ++ ": True,")%string;
    ("        " ++ dq ++ "error_message" ++ dq ++ ": None")%string;
    "    }}";
    "    ";
    "    start_time = time.time()";
    "    ";
    "    with sync_playwright() as p:";
    "        # Launch browser in headless mode";
    "        browser = p.chromium.launch(headless=True)";
    "        context = browser.new_context(";
    ("            viewport={{" ++ dq ++ "width" ++ dq ++ ": 1280, " ++ dq ++ "height" ++ dq ++ ": 720}},")%string;
    ("            record_video_dir=" ++ dq ++ "videos/" ++ dq ++ " if {record_video} else None")%string;
    "        )";
    "        page = context.new_page()";
    "        ";
    "        # Capture console logs";
    ("        page.on(" ++ dq ++ "console" ++ dq ++ ", lambda msg: results[" ++ dq ++ "console_logs" ++ dq ++ "].append(f" ++ dq ++ "[{{msg.type}}] {{msg.text}}" ++ dq ++ "))")%string;
    "        ";
    "        try:";
    "{test_steps}";
    "        except Exception as e:";
    ("            results[" ++ dq ++ "success" ++ dq ++ "] = False")%string;
    ("            results[" ++ dq ++ "error_message" ++ dq ++ "] = str(e)")%string;
    "            # Take screenshot on failure";
    "            try:";
    ("                page.screenshot(path=" ++ dq ++ "screenshots/error_{{int(time.time())}}.png" ++ dq ++ ")")%string;
    ("                results[" ++ dq ++ "steps" ++ dq ++ "][-1][" ++ dq ++ "screenshot" ++ dq ++ "] = f" ++ dq ++ "screenshots/error_{{int(time.time())}}.png" ++ dq)%string;
    "            except:";
    "                pass";
    "        finally:";
    "            context.close()";
    "            browser.close()";
    "    ";
    ("    results[" ++ dq ++ "total_time_ms" ++ dq ++ "] = int((time.time() - start_time) * 1000)")%string;
    "    return results";
    "";
    "";
    ("if __name__ == " ++ dq ++ "__main__" ++ dq ++ ":")%string;
    "    import json";
    "    result = run_test()";
    "    print(json.dumps(result, indent=2))";
    ""
  ].

(** [str.format] with keyword fields and no conversions:
    doubled braces stand for one brace, [{name}] for the field's value.
    [inl] carries the message of the exception Python raises. *)
Fixpoint lookup (name : string) (fields : list (string * string))
    : option string :=
  match fields with
  | [] => None
  | (k, v) :: rest => if String.eqb k name then Some v else lookup name rest
  end.

Definition prepend (s : string) (r : string + string) : string + string :=
  match r with
  | inl e => inl e
  | inr t => inr (s ++ t)%string
  end.

Fixpoint format_from (fields : list (string * string)) (tpl : string)
    (field : option string) : string + string :=
  match tpl with
  | EmptyString =>
      match field with
      | None => inr EmptyString
      | Some _ => inl "expected '}' before end of string"
      end
  | String c t =>
      match field with
      | Some name =>
          if Ascii.eqb c "}"%char then
            match lookup name fields with
            | Some v => prepend v (format_from fields t None)
            | None => inl ("'" ++ name ++ "'")%string
            end
          else format_from fields t
                 (Some (name ++ String c EmptyString)%string)
      | None =>
          if Ascii.eqb c "{"%char then
            match t with
            | String c' t' =>
                if Ascii.eqb c' "{"%char
                then prepend "{" (format_from fields t' None)
                else format_from fields t (Some EmptyString)
            | EmptyString => inl "Single '{' encountered in format string"
            end
          else if Ascii.eqb c "}"%char then
            match t with
            | String c' t' =>
                if Ascii.eqb c' "}"%char
                then prepend "}" (format_from fields t' None)
                else inl "Single '}' encountered in format string"
            | EmptyString => inl "Single '}' encountered in format string"
            end
          else prepend (String c EmptyString) (format_from fields t None)
      end
  end.

Definition format (tpl : string) (fields : list (string * string))
    : string + string :=
  format_from fields tpl None.

(** A truthy [x] has each double quote replaced by a backslash and a
    double quote. *)
Definition escape (o : option string) : option string :=
  match o with
  | Some s =>
      if truthy s then Some (replace (ascii_of_nat 34) (bs ++ dq)%string s)
      else o
  | None => None
  end.

Definition generate_step_code (action : TestAction.t) (step_number : Z)
    (base_url : string) : string :=
  let action_type := TestAction.action action in
  let selector := fmt_opt (escape (TestAction.selector action)) in
  let value := fmt_opt (escape (TestAction.value action)) in
  let target := TestAction.target action in
  let code_lines :=
    [ ("            # Step " ++ fmt_int step_number ++ ": " ++ action_type)%string;
      "            step_start = time.time()";
      ("            step_result = {" ++ dq ++ "step_number" ++ dq ++ ": "
         ++ fmt_int step_number ++ ", " ++ dq ++ "action" ++ dq ++ ": " ++ dq
         ++ action_type ++ dq ++ ", " ++ dq ++ "selector" ++ dq ++ ": " ++ dq
         ++ selector ++ dq ++ ", " ++ dq ++ "status" ++ dq ++ ": " ++ dq
         ++ "pass" ++ dq ++ ", " ++ dq ++ "error" ++ dq ++ ": None, " ++ dq
         ++ "time_ms" ++ dq ++ ": 0, " ++ dq ++ "screenshot" ++ dq
         ++ ": None}")%string;
      "            try:" ] in
  let action_lines :=
    if String.eqb action_type "goto" then
      let url_path :=
        fmt_opt (py_or (py_or target (escape (TestAction.value action)))
                   (Some "/")) in
      let url_path :=
        if negb (startswith url_path "http")
        then (base_url ++ url_path)%string else url_path in
      [ ("                page.goto(" ++ dq ++ url_path ++ dq ++ ")")%string;
        ("                page.wait_for_load_state(" ++ dq ++ "networkidle"
           ++ dq ++ ")")%string ]
    else if String.eqb action_type "click" then
      [ ("                page.click(" ++ dq ++ selector ++ dq ++ ")")%string ]
    else if String.eqb action_type "fill" then
      [ ("                page.fill(" ++ dq ++ selector ++ dq ++ ", " ++ dq
           ++ value ++ dq ++ ")")%string ]
    else if String.eqb action_type "wait" then
      [ ("                page.wait_for_selector(" ++ dq ++ selector ++ dq
           ++ ", timeout=10000)")%string ]
    else if String.eqb action_type "assert_url" then
      [ ("                assert " ++ dq ++ value ++ dq
           ++ " in page.url, f" ++ dq ++ "URL assertion failed: expected "
           ++ bs ++ dq ++ value ++ bs ++ dq ++ " in {page.url}" ++ dq)%string ]
    else if String.eqb action_type "assert_visible" then
      [ ("                expect(page.locator(" ++ dq ++ selector ++ dq
           ++ ")).to_be_visible()")%string ]
    else if String.eqb action_type "assert_text" then
      if truthy_opt (escape (TestAction.selector action)) then
        [ ("                expect(page.locator(" ++ dq ++ selector ++ dq
             ++ ")).to_contain_text(" ++ dq ++ value ++ dq ++ ")")%string ]
      else
        [ ("                expect(page.locator(" ++ dq ++ "body" ++ dq
             ++ ")).to_contain_text(" ++ dq ++ value ++ dq ++ ")")%string ]
    else
      [ ("                pass  # Unknown action: " ++ action_type)%string ] in
  let closing_lines :=
    [ "            except Exception as step_error:";
      ("                step_result[" ++ dq ++ "status" ++ dq ++ "] = " ++ dq
         ++ "fail" ++ dq)%string;
      ("                step_result[" ++ dq ++ "error" ++ dq
         ++ "] = str(step_error)")%string;
      "                raise";
      "            finally:";
      ("                step_result[" ++ dq ++ "time_ms" ++ dq
         ++ "] = int((time.time() - step_start) * 1000)")%string;
      ("                results[" ++ dq ++ "steps" ++ dq
         ++ "].append(step_result)")%string;
      "" ] in
  String.concat nl (code_lines ++ action_lines ++ closing_lines).

(** [for i, action in enumerate(parsed_actions, 1)]. *)
Fixpoint step_codes (actions : list TestAction.t) (i : Z)
    (base_url : string) : list string :=
  match actions with
  | [] => []
  | action :: rest =>
      generate_step_code action i base_url
      :: step_codes rest (i + 1)%Z base_url
  end.

(** The script text for a non-empty action list; [timestamp] is
    [datetime.now().isoformat()] as read during the call. *)
Definition render (timestamp : string) (actions : list TestAction.t)
    (base_url instruction : string) : string + string :=
  let all_steps := String.concat nl (step_codes actions 1 base_url) in
  format PLAYWRIGHT_TEMPLATE
    [ ("timestamp", timestamp);
      ("instruction",
       replace (ascii_of_nat 34) (bs ++ dq)%string instruction);
      ("test_steps", all_steps);
      ("record_video", "False") ].

Definition generate_code (timestamp : string) (state : AgentState)
    : AgentState :=
  let parsed_actions := parsed_actions state in
  let base_url := base_url state in
  let instruction := instruction state in
  match parsed_actions with
  | [] =>
      set_generated_code
        (errors_append state "No parsed actions to generate code from") ""
  | _ :: _ =>
      match render timestamp parsed_actions base_url instruction with
      | inr generated_code => set_generated_code state generated_code
      | inl e =>
          set_generated_code
            (errors_append state ("Failed to generate code: " ++ e)%string)
            ""
      end
  end.

End CodeGenerator.

(** ** nodes/instruction_parser.py *)

Module InstructionParser.
Import State PyStr.

(** One element of the JSON array the model answers with, read with
    [.get]: [None] is a missing key. *)
Record RawAction : Type := mkRaw {
  raw_action : option string;
  raw_target : option string;
  raw_selector : option string;
  raw_value : option string
}.

(** What the [try] block obtains from the language-model chain and the JSON
    decoding: the decoded array, or the text of the exception. *)
Inductive ChainOutcome : Type :=
| ChainReturns (result : list RawAction)
| ChainRaises (e : string).

(** [s.partition(sep)] when [sep] occurs in [s]: the text before its first
    occurrence and the text after it. *)
Fixpoint partition (sep s : string) : option (string * string) :=
  match strip_prefix sep s with
  | Some rest => Some (EmptyString, rest)
  | None =>
      match s with
      | EmptyString => None
      | String c t =>
          match partition sep t with
          | Some (before, after) => Some (String c before, after)
          | None => None
          end
      end
  end.

(** [s.split(sep)] for a non-empty [sep]: a string of [n] characters has at
    most [n] occurrences of it. *)
Fixpoint split_upto (n : nat) (sep s : string) : list string :=
  match n with
  | O => [s]
  | S n' =>
      match partition sep s with
      | Some (before, after) => before :: split_upto n' sep after
      | None => [s]
      end
  end.

Definition split (sep s : string) : list string :=
  split_upto (String.length s) sep s.

(** [s.lstrip()], [s.rstrip()] and [s.strip()]. *)
Fixpoint lstrip (s : string) : string :=
  match s with
  | EmptyString => EmptyString
  | String c t => if Re.is_space c then lstrip t else s
  end.

Fixpoint rstrip (s : string) : string :=
  match s with
  | EmptyString => EmptyString
  | String c t =>
      match rstrip t with
      | EmptyString => if Re.is_space c then EmptyString
                       else String c EmptyString
      | String d r => String c (String d r)
      end
  end.

Definition strip (s : string) : string := rstrip (lstrip s).

(** The text inside the first code fence when there is one, without the
    white space around it. *)
Definition clean_json_response (response : string) : string :=
  let response :=
    if contains "```json" response then
      nth 0 (split "```" (nth 1 (split "```json" response) EmptyString))
        EmptyString
    else if contains "```" response then
      nth 0 (split "```" (nth 1 (split "```" response) EmptyString))
        EmptyString
    else response in
  strip response.

Definition normalize_action (action : RawAction) : TestAction.t :=
  TestAction.mk
    (match raw_action action with Some a => a | None => "" end)
    (if match raw_action action with
        | Some a => String.eqb a "goto"
        | None => false
        end
     then py_or (raw_target action) (raw_value action)
     else None)
    (raw_selector action)
    (raw_value action).

Definition normalize_actions (actions : list RawAction)
    : list TestAction.t :=
  map normalize_action actions.

Section WithChain.

Variable chain_invoke : string -> ChainOutcome.

Definition parse_instruction (state : AgentState) : AgentState :=
  let instruction := instruction state in
  match chain_invoke instruction with
  | ChainReturns result =>
      set_parsed_actions state (normalize_actions result)
  | ChainRaises e =>
      set_parsed_actions
        (errors_append state ("Failed to parse instruction: " ++ e)%string)
        []
  end.

End WithChain.

End InstructionParser.

(** ** nodes/reporter.py *)

Module Reporter.
Import State PyStr.

Record Summary : Type := mkSummary { total : Z; passed : Z; failed : Z }.

Definition status_is (st : string) (s : StepResult.t) : bool :=
  match StepResult.status s with
  | Some x => String.eqb x st
  | None => false
  end.

(** [sum(1 for s in steps if s.get("status") == "pass")]. *)
Fixpoint count_pass (steps : list StepResult.t) : Z :=
  match steps with
  | [] => 0
  | s :: rest => (if status_is "pass" s then 1 else 0) + count_pass rest
  end%Z.

Definition calculate_summary (steps : list StepResult.t) : Summary :=
  let total := Z.of_nat (List.length steps) in
  let passed := count_pass steps in
  let failed := (total - passed)%Z in
  mkSummary total passed failed.

Fixpoint first_failed_step (steps : list StepResult.t) : option string :=
  match steps with
  | [] => None
  | step :: rest =>
      if status_is "fail" step && truthy_opt (StepResult.error step) then
        Some ("Step " ++ fmt_int (StepResult.step_number step) ++ " ("
                ++ StepResult.action step ++ "): "
                ++ fmt_opt (StepResult.error step))%string
      else first_failed_step rest
  end.

Definition get_failure_reason (steps : list StepResult.t)
    (error_message : option string) : option string :=
  match first_failed_step steps with
  | Some r => Some r
  | None => if truthy_opt error_message then error_message else None
  end.

Fixpoint collect_screenshots (steps : list StepResult.t) : list string :=
  match steps with
  | [] => []
  | step :: rest =>
      match StepResult.screenshot step with
      | Some p => if truthy p then p :: collect_screenshots rest
                  else collect_screenshots rest
      | None => collect_screenshots rest
      end
  end.

Definition eq60 : string := PyStr.repeat "="%char 60.
Definition dash40 : string := PyStr.repeat "-"%char 40.

Definition step_lines (step : StepResult.t) : list string :=
  let step_emoji := if status_is "pass" step then "✅" else "❌" in
  let selector_str :=
    if truthy_opt (StepResult.selector step)
    then (" [" ++ fmt_opt (StepResult.selector step) ++ "]")%string
    else "" in
  [ ("  " ++ step_emoji ++ " Step " ++ fmt_int (StepResult.step_number step)
       ++ ": " ++ StepResult.action step ++ selector_str)%string;
    ("     Time: "
       ++ fmt_int (match StepResult.time_ms step with
                   | Some t => t
                   | None => 0%Z
                   end) ++ "ms")%string ]
  ++ (if truthy_opt (StepResult.error step)
      then [ ("     Error: " ++ fmt_opt (StepResult.error step))%string ]
      else [])
  ++ [ "" ].

(** [timestamp] is [datetime.now().strftime(...)] as read during the
    call. *)
Definition generate_human_readable_report (timestamp : string)
    (instruction base_url status : string) (summary : Summary)
    (steps : list StepResult.t) (failure_reason : option string)
    (execution_time_ms : Z) : string :=
  let status_emoji := if String.eqb status "PASSED" then "✅" else "❌" in
  let lines :=
    [ eq60; "  AI WEB TESTING AGENT - TEST REPORT"; eq60; "";
      ("📋 Instruction: " ++ instruction)%string;
      ("🌐 Target URL: " ++ base_url)%string;
      ("🕐 Timestamp: " ++ timestamp)%string;
      "";
      (status_emoji ++ " STATUS: " ++ status)%string;
      "";
      dash40; "📊 SUMMARY"; dash40;
      ("  Total Steps:  " ++ fmt_int (total summary))%string;
      ("  Passed:       " ++ fmt_int (passed summary))%string;
      ("  Failed:       " ++ fmt_int (failed summary))%string;
      ("  Duration:     " ++ fmt_int execution_time_ms ++ "ms")%string;
      "";
      dash40; "📝 STEP DETAILS"; dash40 ]
    ++ flat_map step_lines steps
    ++ (if truthy_opt failure_reason
        then [ dash40; "⚠️ FAILURE DETAILS"; dash40;
               ("  " ++ fmt_opt failure_reason)%string; "" ]
        else [])
    ++ [ eq60 ] in
  String.concat nl lines.

Definition generate_report (timestamp : string) (state : AgentState)
    : AgentState :=
  let execution_result := execution_result state in
  let instruction := instruction state in
  let base_url := base_url state in
  let steps := ExecutionResult.steps execution_result in
  let summary := calculate_summary steps in
  let status :=
    if ExecutionResult.success execution_result && (failed summary =? 0)%Z
    then "PASSED" else "FAILED" in
  let failure_reason :=
    get_failure_reason steps
      (ExecutionResult.error_message execution_result) in
  let screenshots := collect_screenshots steps in
  let human_readable :=
    generate_human_readable_report timestamp instruction base_url status
      summary steps failure_reason
      (ExecutionResult.total_time_ms execution_result) in
  set_report state
    (TestReport.mk status (total summary) (passed summary) (failed summary)
       (ExecutionResult.total_time_ms execution_result) steps
       failure_reason screenshots human_readable).

End Reporter.

(** ** graph.py: the workflow *)

Module Graph.
Import State.

(** The nodes added to the [StateGraph], and its [END]. *)
Inductive node : Type :=
| parse_instruction
| generate_code
| validate_code
| execute_test
| generate_report
| handle_error
| END.

Definition route_after_validation (state : AgentState) : node :=
  if Validator.is_valid state then execute_test else handle_error.

Definition route_after_error_handler (state : AgentState) : node :=
  if ErrorHandler.should_retry state then generate_code
  else generate_report.

Definition route_after_execution (state : AgentState) : node :=
  if ExecutionResult.success (execution_result state) then generate_report
  else if ErrorHandler.should_retry state then handle_error
  else generate_report.

(** What a run obtains from outside. Readings that can differ from one call
    to the next are indexed by the number of nodes executed before. *)
Record World : Type := mkWorld {
  chain_invoke : string -> InstructionParser.ChainOutcome;
  ast_parse : string -> Validator.ParseOutcome;
  py_run : nat -> string -> Executor.ScriptRun;
  now_isoformat : nat -> string;
  now_strftime : nat -> string;
  time_time : nat -> Z;
  elapsed_ms : nat -> Z
}.

Inductive run_result : Type :=
| Finished (final_state : AgentState)
| Crashed (e : Executor.PyFault)
| OutOfSteps.

Section WithWorld.

Variable w : World.

(** One node and the edge that leaves it: the node's function is applied
    to the state, then the edge (a fixed one, or a router applied to the
    updated state) names the next node. *)
Definition step (t : nat) (n : node) (state : AgentState)
    : Executor.outcome (node * AgentState) :=
  match n with
  | parse_instruction =>
      Executor.Returned
        (generate_code,
         InstructionParser.parse_instruction (chain_invoke w) state)
  | generate_code =>
      Executor.Returned
        (validate_code,
         CodeGenerator.generate_code (now_isoformat w t) state)
  | validate_code =>
      match Validator.validate_code (ast_parse w) state with
      | Executor.Returned state' =>
          Executor.Returned (route_after_validation state', state')
      | Executor.Raised e => Executor.Raised e
      end
  | execute_test =>
      match Executor.execute_test (py_run w t) (time_time w t)
              (elapsed_ms w t) state with
      | Executor.Returned state' =>
          Executor.Returned (route_after_execution state', state')
      | Executor.Raised e => Executor.Raised e
      end
  | handle_error =>
      let state' := ErrorHandler.handle_error state in
      Executor.Returned (route_after_error_handler state', state')
  | generate_report =>
      Executor.Returned
        (END, Reporter.generate_report (now_strftime w t) state)
  | END => Executor.Returned (END, state)
  end.

(** The run from node [n]: the nodes executed, each with the state it
    left, and how the run ended. [limit] bounds the number of nodes
    executed. *)
Fixpoint run (limit t : nat) (n : node) (state : AgentState)
    : list (node * AgentState) * run_result :=
  match n with
  | END => ([], Finished state)
  | _ =>
      match limit with
      | O => ([], OutOfSteps)
      | S limit' =>
          match step t n state with
          | Executor.Raised e => ([], Crashed e)
          | Executor.Returned (n', state') =>
              let (trace, r) := run limit' (S t) n' state' in
              ((n, state') :: trace, r)
          end
      end
  end.

(** [graph.invoke(initial_state)] from the entry point. *)
Definition run_agent (limit : nat) (instruction base_url : string)
    : list (node * AgentState) * run_result :=
  run limit 0 parse_instruction
    (create_initial_state instruction base_url).

End WithWorld.

End Graph.

(** ** Concrete states and worlds used as examples *)

Module Scenarios.
Import State.

(** Steps as an executed script reports them, and one with a status that
    is neither "pass" nor "fail". *)
Definition passed_step (n : Z) : StepResult.t :=
  StepResult.mk n "click" (Some "#go") (Some "pass") None (Some 5%Z) None.

Definition failed_step (n : Z) (message : option string) : StepResult.t :=
  StepResult.mk n "fill" (Some "#name") (Some "fail") message (Some 9%Z)
    None.

Definition skipped_step (n : Z) : StepResult.t :=
  StepResult.mk n "wait" (Some "#go") (Some "skipped") None (Some 0%Z) None.

(** The state after an execution with the given outcome and steps, for a
    script that was valid. *)
Definition executed_state (success : bool) (steps : list StepResult.t)
    (message : option string) : AgentState :=
  set_execution_result
    (set_validation_result
       (create_initial_state "click go" "http://localhost:5000")
       (ValidationResult.mk true None None))
    (ExecutionResult.mk success steps 14 [] message).

(** The state [validate_code] leaves when there is no script. *)
Definition no_code_state : AgentState :=
  set_validation_result
    (create_initial_state "log in" "http://localhost:5000")
    (ValidationResult.mk false (Some "No code to validate") (Some 0%Z)).

(** Three actions on the same selector, after an execution whose first
    step reported that selector as not found. *)
Definition username_selector : string := "input[name='username']".

Definition username_not_found : string :=
  ("Selector " ++ PyStr.dq ++ username_selector ++ PyStr.dq ++ " not found")%string.

Definition repeated_selector_state : AgentState :=
  set_execution_result
    (set_validation_result
       (set_generated_code
          (set_parsed_actions
             (create_initial_state "fill the user name three times"
                "http://localhost:5000")
             [ TestAction.mk "click" None (Some username_selector) None;
               TestAction.mk "fill" None (Some username_selector)
                 (Some "alice");
               TestAction.mk "goto" (Some "/home") None (Some "/home");
               TestAction.mk "wait" None (Some username_selector) None ])
          "stale script")
       (ValidationResult.mk true None None))
    (ExecutionResult.mk false
       [ StepResult.mk 1 "click" (Some username_selector) (Some "fail")
           (Some username_not_found) (Some 30000%Z) None ]
       30000 [] (Some "step 1 failed")).

(** One click on a button, the script generated for it, and a parser
    that accepts every text. *)
Definition click_go_state : AgentState :=
  CodeGenerator.generate_code "2026-01-01T00:00:00"
    (set_parsed_actions
       (create_initial_state "click the go button" "http://localhost:5000")
       [ TestAction.mk "click" None (Some "#go") None ]).

Definition parses_everything : string -> Validator.ParseOutcome :=
  fun _ => Validator.Parses.

(** A world where the language model cannot be reached, no script is run
    and the clock stands still. *)
Definition offline_world : Graph.World :=
  Graph.mkWorld
    (fun _ => InstructionParser.ChainRaises "API key not valid")
    parses_everything
    (fun _ _ => Executor.NoRunTest)
    (fun _ => "2026-01-01T00:00:00")
    (fun _ => "2026-01-01 00:00:00")
    (fun _ => 1767225600%Z)
    (fun _ => 0%Z).

(** The request behind [click_go_state], before any script is generated. *)
Definition click_go_request : AgentState :=
  set_parsed_actions
    (create_initial_state "click the go button" "http://localhost:5000")
    [ TestAction.mk "click" None (Some "#go") None ].

(** A script whose [run_test] returns [None], and one that leaves the
    interpreter; an interpreter that runs them as Python does. *)
Definition none_script : string :=
  ("def run_test():" ++ PyStr.nl ++ "    return None")%string.

Definition exit_script : string :=
  ("import sys" ++ PyStr.nl ++ "sys.exit(1)")%string.

Definition interpreter (code : string) : Executor.ScriptRun :=
  if String.eqb code none_script
  then Executor.RunTestReturns (Executor.NotDict "NoneType")
  else if String.eqb code exit_script
  then Executor.ExecRaises (Executor.mkFault false "SystemExit" "1" "")
  else Executor.NoRunTest.

(** A state that [execute_test] accepts: a script and a validation result
    that says valid. *)
Definition ready_state (code : string) : AgentState :=
  set_validation_result
    (set_generated_code
       (create_initial_state "run it" "http://localhost:5000") code)
    (ValidationResult.mk true None None).

End Scenarios.

(** * Properties *)

(** ** Reporting *)

Section ReporterFacts.
Import State Reporter.

Lemma count_pass_filter (steps : list StepResult.t) :
  count_pass steps
  = Z.of_nat (List.length (filter (status_is "pass") steps)).
Proof.
  induction steps as [|s rest IH]; simpl; [reflexivity|].
  rewrite IH. destruct (status_is "pass" s); simpl List.length; lia.
Qed.

Lemma filter_split_length {A : Type} (f : A -> bool) (l : list A) :
  (List.length (filter f l) + List.length (filter (fun x => negb (f x)) l)
   = List.length l)%nat.
Proof.
  induction l as [|x l IH]; simpl; [reflexivity|].
  destruct (f x); simpl; lia.
Qed.

Lemma count_pass_bounds (steps : list StepResult.t) :
  (0 <= count_pass steps <= Z.of_nat (List.length steps))%Z.
Proof.
  rewrite count_pass_filter.
  pose proof (filter_split_length (status_is "pass") steps). lia.
Qed.

Lemma count_pass_all (steps : list StepResult.t) :
  count_pass steps = Z.of_nat (List.length steps)
  <-> Forall (fun s => StepResult.status s = Some "pass") steps.
Proof.
  induction steps as [|s rest IH]; simpl.
  - split; [constructor | reflexivity].
  - pose proof (count_pass_bounds rest) as Hb.
    unfold status_is at 1.
    destruct (StepResult.status s) as [st|] eqn:Hst.
    + destruct (String.eqb_spec st "pass") as [->|Hne].
      * split.
        -- intros H. constructor; [assumption|]. apply IH. lia.
        -- intros H. inversion H; subst.
           assert (count_pass rest = Z.of_nat (List.length rest))
             by (apply IH; assumption). lia.
      * split; [lia|]. intros H. inversion H; subst. congruence.
    + split; [lia|]. intros H. inversion H; subst. congruence.
Qed.

End ReporterFacts.

Section ReporterCountFacts.
Import State Reporter.

Lemma count_pass_app (a b : list StepResult.t) :
  count_pass (a ++ b) = (count_pass a + count_pass b)%Z.
Proof.
  induction a as [|s a IH]; simpl; [reflexivity|]. rewrite IH. lia.
Qed.

Lemma count_pass_permutation (a b : list StepResult.t) :
  Permutation a b -> count_pass a = count_pass b.
Proof.
  induction 1; simpl; lia.
Qed.

Lemma count_pass_none (steps : list StepResult.t) :
  Forall (fun s => StepResult.status s <> Some "pass") steps ->
  count_pass steps = 0%Z.
Proof.
  induction 1 as [|s rest Hs _ IH]; simpl; [reflexivity|].
  rewrite IH. unfold status_is.
  destruct (StepResult.status s) as [st|]; [|reflexivity].
  destruct (String.eqb_spec st "pass") as [->|]; [|reflexivity].
  contradiction Hs. reflexivity.
Qed.

(** Whatever the statuses are: the report is "PASSED" exactly when the
    execution succeeded and every step has status "pass", and it is "FAILED"
    otherwise. *)
Lemma report_status_passed_iff (timestamp : string) (state : AgentState) :
  let r := report (generate_report timestamp state) in
  let ex := execution_result state in
  (TestReport.status r = "PASSED"
   <-> ExecutionResult.success ex = true
       /\ Forall (fun s => StepResult.status s = Some "pass")
            (ExecutionResult.steps ex))
  /\ (TestReport.status r = "PASSED" \/ TestReport.status r = "FAILED").
Proof.
  simpl.
  set (steps := ExecutionResult.steps (execution_result state)).
  pose proof (count_pass_all steps) as Hall.
  destruct (ExecutionResult.success (execution_result state)); simpl.
  - destruct (Z.eqb_spec (Z.of_nat (List.length steps) - count_pass steps) 0)
      as [Hz|Hz].
    + split; [|left; reflexivity].
      split; [intros _|reflexivity]. split; [reflexivity|].
      apply Hall. lia.
    + split; [|right; reflexivity].
      split; [discriminate|]. intros [_ H]. apply Hall in H. lia.
  - split; [|right; reflexivity].
    split; [discriminate|]. intros [H _]. discriminate.
Qed.

(** When every status is "pass" or "fail", the steps that all pass are the
    steps none of which fails. *)
Lemma all_pass_iff_no_fail (steps : list StepResult.t) :
  Forall
    (fun s =>
       StepResult.status s = Some "pass" \/ StepResult.status s = Some "fail")
    steps ->
  Forall (fun s => StepResult.status s = Some "pass") steps
  <-> Forall (fun s => StepResult.status s <> Some "fail") steps.
Proof.
  induction 1 as [|s rest Hs _ IH].
  - split; constructor.
  - split; intros H; inversion H; subst; constructor;
      try (apply IH; assumption).
    + congruence.
    + destruct Hs as [Hs|Hs]; [assumption | contradiction].
Qed.

End ReporterCountFacts.

(** C10. In the report of [generate_report], for every way of splitting
    the steps into those whose status is "pass" and the others,
    [total_steps] is the number of steps, [passed] the number of the first,
    [failed] the number of the others, and [passed + failed = total_steps]:
    a step whose status is neither "pass" nor "fail", or that has no status,
    is counted as failed. *)
Theorem report_counts_by_status (timestamp : string)
    (state : State.AgentState) (passing others : list StepResult.t) :
  Permutation (ExecutionResult.steps (State.execution_result state))
    (passing ++ others) ->
  Forall (fun s => StepResult.status s = Some "pass") passing ->
  Forall (fun s => StepResult.status s <> Some "pass") others ->
  let r := State.report (Reporter.generate_report timestamp state) in
  (TestReport.total_steps r
   = Z.of_nat
       (List.length (ExecutionResult.steps (State.execution_result state)))
   /\ TestReport.passed r = Z.of_nat (List.length passing)
   /\ TestReport.failed r = Z.of_nat (List.length others)
   /\ TestReport.passed r + TestReport.failed r = TestReport.total_steps r)%Z.
Proof.
  intros Hperm Hpass Hothers. simpl.
  pose proof (Permutation_length Hperm) as Hlen.
  rewrite length_app in Hlen.
  rewrite (count_pass_permutation _ _ Hperm), count_pass_app.
  rewrite (count_pass_none others Hothers).
  assert (Hp : Reporter.count_pass passing = Z.of_nat (List.length passing))
    by (apply count_pass_all; assumption).
  rewrite Hp. repeat split; lia.
Qed.

Lemma report_counts_by_status_witness :
  TestReport.total_steps
    (State.report
       (Reporter.generate_report "2026-01-01 00:00:00"
          (Scenarios.executed_state false
             [ Scenarios.passed_step 1; Scenarios.skipped_step 2;
               Scenarios.failed_step 3 (Some "Timeout 30000ms exceeded");
               Scenarios.passed_step 4 ]
             (Some "Timeout 30000ms exceeded"))))
  = 4%Z
  /\ TestReport.passed
       (State.report
          (Reporter.generate_report "2026-01-01 00:00:00"
             (Scenarios.executed_state false
                [ Scenarios.passed_step 1; Scenarios.skipped_step 2;
                  Scenarios.failed_step 3 (Some "Timeout 30000ms exceeded");
                  Scenarios.passed_step 4 ]
                (Some "Timeout 30000ms exceeded"))))
     = 2%Z
  /\ TestReport.failed
       (State.report
          (Reporter.generate_report "2026-01-01 00:00:00"
             (Scenarios.executed_state false
                [ Scenarios.passed_step 1; Scenarios.skipped_step 2;
                  Scenarios.failed_step 3 (Some "Timeout 30000ms exceeded");
                  Scenarios.passed_step 4 ]
                (Some "Timeout 30000ms exceeded"))))
     = 2%Z.
Proof.
  destruct
    (report_counts_by_status "2026-01-01 00:00:00"
       (Scenarios.executed_state false
          [ Scenarios.passed_step 1; Scenarios.skipped_step 2;
            Scenarios.failed_step 3 (Some "Timeout 30000ms exceeded");
            Scenarios.passed_step 4 ]
          (Some "Timeout 30000ms exceeded"))
       [ Scenarios.passed_step 1; Scenarios.passed_step 4 ]
       [ Scenarios.skipped_step 2;
         Scenarios.failed_step 3 (Some "Timeout 30000ms exceeded") ])
    as (Htotal & Hpassed & Hfailed & _).
  - simpl. apply perm_skip.
    apply Permutation_sym.
    apply (Permutation_cons_append
             [ Scenarios.skipped_step 2;
               Scenarios.failed_step 3 (Some "Timeout 30000ms exceeded") ]
             (Scenarios.passed_step 4)).
  - repeat constructor.
  - repeat (constructor; [discriminate|]). constructor.
  - rewrite Htotal, Hpassed, Hfailed. repeat split.
Defined.

(** C9. With steps whose status is "pass" or "fail", the status of the
    report is "PASSED" if and only if the execution result reports success
    and no step has status "fail"; in every other case it is "FAILED". *)
Theorem report_passed_iff_succeeded_and_no_fail (timestamp : string)
    (state : State.AgentState) :
  Forall
    (fun s =>
       StepResult.status s = Some "pass" \/ StepResult.status s = Some "fail")
    (ExecutionResult.steps (State.execution_result state)) ->
  let r := State.report (Reporter.generate_report timestamp state) in
  let ex := State.execution_result state in
  (TestReport.status r = "PASSED"
   <-> ExecutionResult.success ex = true
       /\ Forall (fun s => StepResult.status s <> Some "fail")
            (ExecutionResult.steps ex))
  /\ (TestReport.status r = "FAILED"
      <-> ~ (ExecutionResult.success ex = true
             /\ Forall (fun s => StepResult.status s <> Some "fail")
                  (ExecutionResult.steps ex))).
Proof.
  intros Hdom. cbv zeta.
  destruct (report_status_passed_iff timestamp state) as [Hiff Hcases].
  cbv zeta in Hiff, Hcases.
  pose proof (all_pass_iff_no_fail _ Hdom) as Hall.
  assert (Hmain :
    TestReport.status
      (State.report (Reporter.generate_report timestamp state)) = "PASSED"
    <-> ExecutionResult.success (State.execution_result state) = true
        /\ Forall (fun s => StepResult.status s <> Some "fail")
             (ExecutionResult.steps (State.execution_result state))).
  { rewrite Hiff. split; intros [Hs Hf]; (split; [exact Hs|]);
      apply Hall; exact Hf. }
  split; [exact Hmain|].
  split.
  - intros Hfailed Hcond. apply Hmain in Hcond.
    rewrite Hcond in Hfailed. discriminate Hfailed.
  - intros Hnot. destruct Hcases as [Hp|Hf]; [|exact Hf].
    contradiction Hnot. apply Hmain. exact Hp.
Qed.

Lemma report_passed_iff_succeeded_and_no_fail_witness :
  TestReport.status
    (State.report
       (Reporter.generate_report "2026-01-01 00:00:00"
          (Scenarios.executed_state true
             [ Scenarios.passed_step 1; Scenarios.passed_step 2 ] None)))
  = "PASSED"
  /\ TestReport.status
       (State.report
          (Reporter.generate_report "2026-01-01 00:00:00"
             (Scenarios.executed_state true
                [ Scenarios.passed_step 1;
                  Scenarios.failed_step 2 (Some "element not found") ]
                None)))
     = "FAILED".
Proof.
  split.
  - apply (report_passed_iff_succeeded_and_no_fail "2026-01-01 00:00:00"
             (Scenarios.executed_state true
                [ Scenarios.passed_step 1; Scenarios.passed_step 2 ] None)).
    + repeat constructor.
    + split; [reflexivity|].
      repeat (constructor; [discriminate|]). constructor.
  - apply (report_passed_iff_succeeded_and_no_fail "2026-01-01 00:00:00"
             (Scenarios.executed_state true
                [ Scenarios.passed_step 1;
                  Scenarios.failed_step 2 (Some "element not found") ]
                None)).
    + constructor; [left; reflexivity|].
      constructor; [right; reflexivity | constructor].
    + intros [_ Hno]. inversion Hno as [|? ? _ Hrest]; subst.
      inversion Hrest as [|? ? Hfail _]; subst.
      apply Hfail. reflexivity.
Defined.

(** ** The regular expressions *)

Section RegexFacts.

Lemma rep_greedy_inv (c : Re.cls) (k : string -> string -> option Re.result)
    (s acc : string) (r : Re.result) :
  Re.rep_greedy c k acc s = Some r -> exists g s', k g s' = Some r.
Proof.
  revert acc. induction s as [|a t IH]; intros acc H; simpl in H.
  - eauto.
  - destruct (Re.cls_match c a); [|eauto].
    destruct (Re.rep_greedy c k (acc ++ String a EmptyString) t) eqn:E.
    + inversion H; subst. eapply IH; eassumption.
    + eauto.
Qed.

Lemma search_inv (p : list Re.item) (s : string) (caps : list string) :
  Re.search p s = Some caps ->
  exists s' rest, Re.match_items p [] s' = Some (caps, rest).
Proof.
  induction s as [|a t IH]; simpl; intros H.
  - destruct (Re.match_items p [] EmptyString) as [[c r]|] eqn:E;
      [|discriminate].
    inversion H; subst; eauto.
  - destruct (Re.match_items p [] (String a t)) as [[c r]|] eqn:E.
    + inversion H; subst; eauto.
    + auto.
Qed.

(** A pattern made of a literal, one [+] group and a literal captures a
    non-empty group. *)
Lemma one_group_nonempty (l1 l2 : string) (c : Re.cls) (caps0 : list string)
    (s : string) (caps : list string) (rest : string) :
  Re.match_items [Re.Lit l1; Re.GroupPlus c; Re.Lit l2] caps0 s
  = Some (caps, rest) ->
  exists g, PyStr.truthy g = true /\ caps = caps0 ++ [g].
Proof.
  intros H. cbn [Re.match_items] in H.
  destruct (PyStr.strip_prefix l1 s) as [s1|]; [|discriminate].
  apply rep_greedy_inv in H as (g & s2 & H).
  destruct (PyStr.truthy g) eqn:Hg; [|discriminate].
  destruct (PyStr.strip_prefix l2 s2); [|discriminate].
  inversion H; subst. eauto.
Qed.

Lemma search_one_group (l1 l2 : string) (c : Re.cls) (s : string)
    (caps : list string) (sel : string) :
  Re.search [Re.Lit l1; Re.GroupPlus c; Re.Lit l2] s = Some caps ->
  Re.group 1 caps = Some sel -> PyStr.truthy sel = true.
Proof.
  intros H G. apply search_inv in H as (s' & rest & H).
  apply one_group_nonempty in H as (g & Hg & ->).
  simpl in G. inversion G; subst. assumption.
Qed.

Lemma search_prefixed_group (l0 l1 l2 : string) (c0 c : Re.cls) (s : string)
    (caps : list string) (sel : string) :
  Re.search [Re.Lit l0; Re.Star c0; Re.Lit l1; Re.GroupPlus c; Re.Lit l2] s
  = Some caps ->
  Re.group 1 caps = Some sel -> PyStr.truthy sel = true.
Proof.
  intros H G. apply search_inv in H as (s' & rest & H).
  cbn [Re.match_items] in H.
  destruct (PyStr.strip_prefix l0 s') as [s1|]; [|discriminate].
  apply rep_greedy_inv in H as (g0 & s2 & H).
  change (Re.match_items [Re.Lit l1; Re.GroupPlus c; Re.Lit l2] [] s2
          = Some (caps, rest)) in H.
  apply one_group_nonempty in H as (g & Hg & ->).
  simpl in G. inversion G; subst. assumption.
Qed.

End RegexFacts.

(** ** The recovery engine *)

Section ErrorHandlerFacts.
Import State ErrorHandler.

Lemma extract_failed_selector_truthy (msg sel : string) :
  extract_failed_selector msg = Some sel -> PyStr.truthy sel = true.
Proof.
  unfold extract_failed_selector, patterns.
  cbn [first_match].
  repeat
    match goal with
    | |- match Re.search ?p msg with _ => _ end = _ -> _ =>
        destruct (Re.search p msg) as [caps|] eqn:?
    end;
    intros H;
    try discriminate;
    eauto using search_one_group, search_prefixed_group.
Qed.

Lemma extract_failed_selector_message (msg sel : string) :
  extract_failed_selector msg = Some sel -> PyStr.truthy msg = true.
Proof.
  destruct msg; [|reflexivity].
  intros H. vm_compute in H. discriminate H.
Qed.

(** The rewriting loop is a map, and it reports whether some action had the
    failing selector. *)
Lemma rewrite_actions_map (f n : string) (actions : list TestAction.t) :
  rewrite_actions f n actions
  = (map (rewrite_one f n) actions, existsb (selector_is f) actions).
Proof.
  induction actions as [|a rest IH]; simpl; [reflexivity|].
  rewrite IH. unfold rewrite_one.
  destruct (selector_is f a); reflexivity.
Qed.

Lemma error_message_of_retry (s : AgentState) (n : Z) :
  error_message_of (set_retry_count s n) = error_message_of s.
Proof. reflexivity. Qed.

(** What [handle_error] does while the budget is not used up, by the
    outcome of the analysis. *)
Lemma handle_error_within_budget (s : AgentState) :
  (retry_count s < max_retries s)%Z ->
  let s1 := set_retry_count s (retry_count s + 1) in
  handle_error s = s1
  \/ (exists msg f n alts,
        error_message_of s = Some msg
        /\ extract_failed_selector msg = Some f
        /\ suggest_alternative_selectors f = n :: alts
        /\ ((existsb (selector_is f) (parsed_actions s) = true
             /\ handle_error s
                = set_validation_result
                    (set_generated_code
                       (set_parsed_actions s1
                          (map (rewrite_one f n) (parsed_actions s)))
                       "")
                    (ValidationResult.set_is_valid (validation_result s)
                       false))
            \/ (existsb (selector_is f) (parsed_actions s) = false
                /\ handle_error s
                   = set_parsed_actions s1
                       (map (rewrite_one f n) (parsed_actions s))))).
Proof.
  intros Hlt s1. unfold handle_error.
  destruct (Z.geb_spec (retry_count s) (max_retries s)) as [Hge|_]; [lia|].
  rewrite error_message_of_retry. fold s1.
  destruct (error_message_of s) as [msg|] eqn:Hmsg; [|left; reflexivity].
  destruct (PyStr.truthy msg); [|left; reflexivity].
  destruct (extract_failed_selector msg) as [f|] eqn:Hf; [|left; reflexivity].
  destruct (PyStr.truthy f); [|left; reflexivity].
  destruct (suggest_alternative_selectors f) as [|n alts] eqn:Halts;
    [left; reflexivity|].
  right. exists msg, f, n, alts. repeat split; try assumption.
  unfold modify_actions_with_alternatives.
  rewrite rewrite_actions_map.
  change (parsed_actions s1) with (parsed_actions s).
  destruct (existsb (selector_is f) (parsed_actions s)); [left|right];
    split; reflexivity.
Qed.

End ErrorHandlerFacts.

(** C1, as stated, fails: on a state with budget left whose failure message
    names no selector, [handle_error] changes nothing but the counter, and the
    router still sends control to [generate_code], not to
    [generate_report]. *)
Lemma retry_only_after_repair_fails :
  (State.retry_count Scenarios.no_code_state
   < State.max_retries Scenarios.no_code_state)%Z
  /\ ErrorHandler.error_message_of Scenarios.no_code_state
     = Some "No code to validate"
  /\ ErrorHandler.extract_failed_selector "No code to validate" = None
  /\ ErrorHandler.handle_error Scenarios.no_code_state
     = State.set_retry_count Scenarios.no_code_state 1
  /\ Graph.route_after_error_handler
       (ErrorHandler.handle_error Scenarios.no_code_state)
     = Graph.generate_code
  /\ Graph.route_after_error_handler
       (ErrorHandler.handle_error Scenarios.no_code_state)
     <> Graph.generate_report.
Proof.
  repeat split; try reflexivity. discriminate.
Qed.

(** C1, amended. After [handle_error] has run on a state whose counter is
    below [max_retries], the router sends control to [generate_code] exactly
    when the incremented counter is still below [max_retries] and the state
    that entered [handle_error] had an invalid validation result or a failed
    execution result, whether or not a selector was rewritten; otherwise it
    sends control to [generate_report]. *)
Theorem route_after_handle_error (s : State.AgentState) :
  (State.retry_count s < State.max_retries s)%Z ->
  let s' := ErrorHandler.handle_error s in
  (Graph.route_after_error_handler s' = Graph.generate_code
   <-> (State.retry_count s + 1 < State.max_retries s)%Z
       /\ (ValidationResult.is_valid (State.validation_result s) = false
           \/ ExecutionResult.success (State.execution_result s) = false))
  /\ (Graph.route_after_error_handler s' = Graph.generate_code
      \/ Graph.route_after_error_handler s' = Graph.generate_report).
Proof.
  intros Hlt s'.
  assert (Hshape :
    State.retry_count s' = (State.retry_count s + 1)%Z
    /\ State.max_retries s' = State.max_retries s
    /\ State.execution_result s' = State.execution_result s
    /\ (ValidationResult.is_valid (State.validation_result s')
        = ValidationResult.is_valid (State.validation_result s)
        \/ (ValidationResult.is_valid (State.validation_result s') = false
            /\ (ValidationResult.is_valid (State.validation_result s) = false
                \/ ExecutionResult.success (State.execution_result s)
                   = false)))).
  { subst s'.
    destruct (handle_error_within_budget s Hlt)
      as [-> | (msg & f & n & alts & Hmsg & _ & _ & [[_ ->] | [_ ->]])];
      simpl; repeat split; auto.
    right. split; [reflexivity|].
    unfold ErrorHandler.error_message_of in Hmsg.
    destruct (ValidationResult.is_valid (State.validation_result s));
      [|left; reflexivity].
    destruct (ExecutionResult.success (State.execution_result s));
      [discriminate | right; reflexivity]. }
  destruct Hshape as (Hrc & Hmax & Hex & Hv).
  unfold Graph.route_after_error_handler, ErrorHandler.should_retry.
  rewrite Hrc, Hmax, Hex.
  destruct (Z.geb_spec (State.retry_count s + 1) (State.max_retries s))
    as [Hge|Hlt'].
  - split; [|right; reflexivity].
    split; [discriminate|]. intros [H _]. lia.
  - destruct (ValidationResult.is_valid (State.validation_result s')) eqn:Hv';
      simpl.
    + destruct Hv as [Hv | [Hv _]]; [|discriminate].
      destruct (ExecutionResult.success (State.execution_result s)) eqn:Hs;
        simpl.
      * split; [|right; reflexivity].
        split; [discriminate|].
        intros [_ [H|H]]; [rewrite <- Hv in H|]; discriminate.
      * split; [|left; reflexivity].
        split; [intros _; split; [assumption | right; reflexivity]
               | reflexivity].
    + split; [|left; reflexivity].
      split; [|reflexivity]. intros _. split; [assumption|].
      destruct Hv as [Hv | [_ Hv]]; [left; congruence | assumption].
Qed.

Lemma route_after_handle_error_witness :
  (State.retry_count Scenarios.no_code_state
   < State.max_retries Scenarios.no_code_state)%Z
  /\ Graph.route_after_error_handler
       (ErrorHandler.handle_error Scenarios.no_code_state)
     = Graph.generate_code.
Proof.
  split; [reflexivity|].
  apply (route_after_handle_error Scenarios.no_code_state); [reflexivity|].
  split; [reflexivity | left; reflexivity].
Defined.

(** C5. When [handle_error], with budget left, extracts a failing selector
    from the failure message and gets a non-empty list of alternatives, every
    action whose selector equals the failing selector is rewritten to the
    first alternative and the other actions are left as they are; and if some
    action had that selector, the generated code becomes the empty string and
    the validation result becomes invalid. *)
Theorem repair_rewrites_every_occurrence (s : State.AgentState)
    (msg failed_selector new_selector : string) (others : list string) :
  (State.retry_count s < State.max_retries s)%Z ->
  ErrorHandler.error_message_of s = Some msg ->
  ErrorHandler.extract_failed_selector msg = Some failed_selector ->
  ErrorHandler.suggest_alternative_selectors failed_selector
  = new_selector :: others ->
  let s' := ErrorHandler.handle_error s in
  State.parsed_actions s'
  = map (ErrorHandler.rewrite_one failed_selector new_selector)
      (State.parsed_actions s)
  /\ (existsb (ErrorHandler.selector_is failed_selector)
        (State.parsed_actions s) = true ->
      State.generated_code s' = EmptyString
      /\ ValidationResult.is_valid (State.validation_result s') = false).
Proof.
  intros Hlt Hmsg Hsel Halts s'. subst s'.
  unfold ErrorHandler.handle_error.
  destruct (Z.geb_spec (State.retry_count s) (State.max_retries s));
    [lia|].
  rewrite error_message_of_retry, Hmsg.
  rewrite (extract_failed_selector_message _ _ Hsel), Hsel.
  rewrite (extract_failed_selector_truthy _ _ Hsel), Halts.
  unfold ErrorHandler.modify_actions_with_alternatives.
  rewrite rewrite_actions_map.
  change (State.parsed_actions (State.set_retry_count s _))
    with (State.parsed_actions s).
  destruct (existsb (ErrorHandler.selector_is failed_selector)
              (State.parsed_actions s)); simpl.
  - split; [reflexivity|]. intros _. split; reflexivity.
  - split; [reflexivity|]. discriminate.
Qed.

Lemma repair_rewrites_every_occurrence_witness :
  map TestAction.selector
    (State.parsed_actions
       (ErrorHandler.handle_error Scenarios.repeated_selector_state))
  = [ Some "input[id='username']"; Some "input[id='username']"; None;
      Some "input[id='username']" ]
  /\ State.generated_code
       (ErrorHandler.handle_error Scenarios.repeated_selector_state)
     = EmptyString
  /\ ValidationResult.is_valid
       (State.validation_result
          (ErrorHandler.handle_error Scenarios.repeated_selector_state))
     = false.
Proof.
  destruct
    (repair_rewrites_every_occurrence Scenarios.repeated_selector_state
       Scenarios.username_not_found Scenarios.username_selector
       "input[id='username']"
       [ "input[type='text']"; "#username"; "[placeholder*='user']";
         "[placeholder*='username']" ])
    as [Hacts Hcode];
    [ reflexivity | reflexivity | vm_compute; reflexivity
    | vm_compute; reflexivity | ].
  split.
  - rewrite Hacts. vm_compute. reflexivity.
  - apply Hcode. vm_compute. reflexivity.
Defined.

(** C4. The list that [suggest_alternative_selectors] returns has at most
    five elements; but it can contain the selector it was given: the generic
    submit-button alternatives are appended after the given selector has been
    filtered out. *)
Theorem suggest_returns_failed_selector :
  (forall s : string,
     (List.length (ErrorHandler.suggest_alternative_selectors s) <= 5)%nat)
  /\ In "[type='submit']"
       (ErrorHandler.suggest_alternative_selectors "[type='submit']")
  /\ In "button:first-of-type"
       (ErrorHandler.suggest_alternative_selectors "button:first-of-type").
Proof.
  split; [|split].
  - intros s. unfold ErrorHandler.suggest_alternative_selectors.
    apply firstn_le_length.
  - vm_compute. right; right; left; reflexivity.
  - vm_compute. do 4 right; left; reflexivity.
Qed.

(** ** Validation *)

Section ValidatorFacts.
Import State Validator.

Lemma check_selectors_always (code : string) :
  check_selectors code = Pair false "Empty selector detected".
Proof.
  unfold check_selectors.
  rewrite orb_true_r. reflexivity.
Qed.

Lemma first_failure_selectors (a b c : check_result) (code : string) :
  ValidationResult.is_valid
    (first_failure
       [ ("Syntax", a); ("Imports", b); ("Structure", c);
         ("Selectors", check_selectors code) ])
  = false.
Proof.
  rewrite check_selectors_always.
  destruct a as [[] ? ?|[] ?], b as [[] ? ?|[] ?], c as [[] ? ?|[] ?];
    reflexivity.
Qed.

(** [validate_code] lets a fault of the parser through, or returns the
    state with a validation result that is not valid. *)
Lemma validate_code_outcome (ast_parse : string -> ParseOutcome)
    (s : AgentState) :
  match validate_code ast_parse s with
  | Executor.Returned s' =>
      exists v, s' = set_validation_result s v
                /\ ValidationResult.is_valid v = false
  | Executor.Raised e => ast_parse (generated_code s) = ParseRaises e
  end.
Proof.
  unfold validate_code.
  destruct (negb (PyStr.truthy (generated_code s))).
  { eexists. split; reflexivity. }
  unfold check_syntax.
  destruct (ast_parse (generated_code s)) as [|msg lineno|e];
    [| |reflexivity];
    (eexists; split; [reflexivity | apply first_failure_selectors]).
Qed.

End ValidatorFacts.

(** C3. The selector check rejects every script, also one that passes no
    empty selector and has no quote inside a selector: its first condition
    is a disjunction whose second operand is a non-empty string literal.
    So [validate_code] never reports a valid script: it returns a state
    that is not valid, unless a fault of the parser that is not a syntax
    error leaves it. For the script generated for one click on "#go", which
    has the required markers, the entry function and the open and close
    calls, the outcome is a failure of the selector check. *)
Theorem validate_code_never_valid :
  (forall code : string,
     Validator.check_selectors code
     = Validator.Pair false "Empty selector detected")
  /\ (forall (ast_parse : string -> Validator.ParseOutcome)
        (state : State.AgentState),
        match Validator.validate_code ast_parse state with
        | Executor.Returned state' => Validator.is_valid state' = false
        | Executor.Raised e =>
            ast_parse (State.generated_code state) = Validator.ParseRaises e
        end)
  /\ (let code := State.generated_code Scenarios.click_go_state in
      PyStr.truthy code = true
      /\ Validator.check_syntax Scenarios.parses_everything code
         = Executor.Returned (Validator.Triple true "" 0)
      /\ Validator.check_required_imports code = Validator.Pair true ""
      /\ Validator.check_function_structure code = Validator.Pair true ""
      /\ PyStr.contains ("page.click(" ++ PyStr.dq ++ PyStr.dq ++ ")")%string
           code = false
      /\ PyStr.contains ("page.fill(" ++ PyStr.dq ++ PyStr.dq ++ ",")%string
           code = false
      /\ Validator.first_unescaped
           (Re.findall Validator.selector_pattern code)
         = Validator.Pair true ""
      /\ Validator.validate_code Scenarios.parses_everything
           Scenarios.click_go_state
         = Executor.Returned
             (State.set_validation_result Scenarios.click_go_state
                (ValidationResult.mk false
                   (Some "Selectors check failed: Empty selector detected")
                   (Some 0%Z)))).
Proof.
  split; [exact check_selectors_always|]. split.
  - intros ast_parse state.
    pose proof (validate_code_outcome ast_parse state) as H.
    destruct (Validator.validate_code ast_parse state) as [state'|e];
      [|exact H].
    destruct H as (v & -> & Hv). exact Hv.
  - cbv zeta. repeat split; vm_compute; reflexivity.
Qed.

(** ** The retry counter along a run *)

Section CounterFacts.
Import State.

Variable w : Graph.World.

(** The nodes other than [handle_error] leave both counters alone. *)
Lemma parse_instruction_counters (s : AgentState) :
  let s' := InstructionParser.parse_instruction (Graph.chain_invoke w) s in
  retry_count s' = retry_count s /\ max_retries s' = max_retries s.
Proof.
  unfold InstructionParser.parse_instruction.
  destruct (Graph.chain_invoke w (instruction s)); split; reflexivity.
Qed.

Lemma generate_code_counters (ts : string) (s : AgentState) :
  let s' := CodeGenerator.generate_code ts s in
  retry_count s' = retry_count s /\ max_retries s' = max_retries s.
Proof.
  unfold CodeGenerator.generate_code.
  destruct (parsed_actions s); [split; reflexivity|].
  destruct (CodeGenerator.render ts _ (base_url s) (instruction s));
    split; reflexivity.
Qed.

Lemma validate_code_counters (s s' : AgentState) :
  Validator.validate_code (Graph.ast_parse w) s = Executor.Returned s' ->
  retry_count s' = retry_count s /\ max_retries s' = max_retries s.
Proof.
  intros H. pose proof (validate_code_outcome (Graph.ast_parse w) s) as Ho.
  rewrite H in Ho. destruct Ho as (v & -> & _). split; reflexivity.
Qed.

Lemma execute_test_counters (run : string -> Executor.ScriptRun)
    (ts total : Z) (s s' : AgentState) :
  Executor.execute_test run ts total s = Executor.Returned s' ->
  retry_count s' = retry_count s /\ max_retries s' = max_retries s.
Proof.
  unfold Executor.execute_test.
  destruct (negb (PyStr.truthy (generated_code s))).
  { intros H; inversion H; subst; split; reflexivity. }
  destruct (negb (ValidationResult.is_valid (validation_result s))).
  { intros H; inversion H; subst; split; reflexivity. }
  destruct (Executor.execute_code_safely run (generated_code s))
    as [[d|ty]|e]; intros H; inversion H; subst; split; reflexivity.
Qed.

Lemma generate_report_counters (ts : string) (s : AgentState) :
  let s' := Reporter.generate_report ts s in
  retry_count s' = retry_count s /\ max_retries s' = max_retries s.
Proof. split; reflexivity. Qed.

(** [handle_error] adds one while the counter is below [max_retries] and
    leaves it alone otherwise. *)
Lemma handle_error_counters (s : AgentState) :
  let s' := ErrorHandler.handle_error s in
  max_retries s' = max_retries s
  /\ ((retry_count s < max_retries s)%Z
      /\ retry_count s' = (retry_count s + 1)%Z
      \/ (retry_count s >= max_retries s)%Z
         /\ retry_count s' = retry_count s).
Proof.
  cbv zeta.
  destruct (Z.lt_ge_cases (retry_count s) (max_retries s)) as [Hlt|Hge].
  - destruct (handle_error_within_budget s Hlt)
      as [-> | (msg & f & n & alts & _ & _ & _ & [[_ ->] | [_ ->]])];
      (split; [reflexivity | left; split; [assumption | reflexivity]]).
  - unfold ErrorHandler.handle_error.
    destruct (Z.geb_spec (retry_count s) (max_retries s)); [|lia].
    split; [reflexivity | right; split; [lia | reflexivity]].
Qed.

(** One transition. *)
Lemma step_counters (t : nat) (n n' : Graph.node) (s s' : AgentState) :
  Graph.step w t n s = Executor.Returned (n', s') ->
  max_retries s' = max_retries s
  /\ (retry_count s' = retry_count s
      \/ n = Graph.handle_error
         /\ (retry_count s < max_retries s)%Z
         /\ retry_count s' = (retry_count s + 1)%Z).
Proof.
  destruct n; simpl; intros H.
  - inversion H; subst.
    destruct (parse_instruction_counters s); auto.
  - inversion H; subst.
    destruct (generate_code_counters (Graph.now_isoformat w t) s); auto.
  - destruct (Validator.validate_code (Graph.ast_parse w) s) as [s1|e] eqn:E;
      [|discriminate].
    inversion H; subst.
    destruct (validate_code_counters _ _ E); auto.
  - destruct (Executor.execute_test (Graph.py_run w t) (Graph.time_time w t)
                (Graph.elapsed_ms w t) s) as [s1|e] eqn:E;
      [|discriminate].
    inversion H; subst.
    destruct (execute_test_counters _ _ _ _ _ E); auto.
  - inversion H; subst.
    destruct (generate_report_counters (Graph.now_strftime w t) s); auto.
  - inversion H; subst.
    destruct (handle_error_counters s) as [Hm [(Hlt & Hrc) | (Hge & Hrc)]];
      auto.
  - inversion H; subst. auto.
Qed.

(** Every state of a run keeps [max_retries] and has its counter between
    the counter the run started with and [max_retries]. *)
Lemma run_counters (limit : nat) :
  forall (t : nat) (n : Graph.node) (s : AgentState),
    (retry_count s <= max_retries s)%Z ->
    Forall
      (fun p =>
         max_retries (snd p) = max_retries s
         /\ (retry_count s <= retry_count (snd p) <= max_retries s)%Z)
      (fst (Graph.run w limit t n s)).
Proof.
  induction limit as [|limit IH]; intros t n s Hs.
  - destruct n; constructor.
  - assert (Hgo :
      forall r,
        Graph.step w t n s = r ->
        Forall
          (fun p =>
             max_retries (snd p) = max_retries s
             /\ (retry_count s <= retry_count (snd p) <= max_retries s)%Z)
          (fst
             match r with
             | Executor.Raised e => ([], Graph.Crashed e)
             | Executor.Returned (n', state') =>
                 let (trace, r') := Graph.run w limit (S t) n' state' in
                 ((n, state') :: trace, r')
             end)).
    { intros [[n' s']|e] Hstep; [|constructor].
      destruct (step_counters _ _ _ _ _ Hstep) as [Hm Hrc].
      assert (Hs' : (retry_count s <= retry_count s' <= max_retries s)%Z)
        by (destruct Hrc as [->|(_ & ? & ->)]; lia).
      specialize (IH (S t) n' s').
      destruct (Graph.run w limit (S t) n' s') as [trace r']; simpl in *.
      constructor.
      - simpl. split; [assumption | lia].
      - eapply Forall_impl; [|apply IH; lia].
        intros p [Hpm Hp]. split; [congruence | lia]. }
    destruct n; try exact (Hgo _ eq_refl). constructor.
Qed.

(** Along a run the counter never decreases. *)
Lemma run_monotone (limit : nat) :
  forall (t : nat) (n : Graph.node) (s : AgentState),
    (retry_count s <= max_retries s)%Z ->
    StronglySorted (fun p q => (retry_count (snd p) <= retry_count (snd q))%Z)
      (fst (Graph.run w limit t n s)).
Proof.
  induction limit as [|limit IH]; intros t n s Hs.
  - destruct n; constructor.
  - assert (Hgo :
      forall r,
        Graph.step w t n s = r ->
        StronglySorted (fun p q => (retry_count (snd p) <= retry_count (snd q))%Z)
          (fst
             match r with
             | Executor.Raised e => ([], Graph.Crashed e)
             | Executor.Returned (n', state') =>
                 let (trace, r') := Graph.run w limit (S t) n' state' in
                 ((n, state') :: trace, r')
             end)).
    { intros [[n' s']|e] Hstep; [|constructor].
      destruct (step_counters _ _ _ _ _ Hstep) as [Hm Hrc].
      assert (Hs' : (retry_count s' <= max_retries s')%Z)
        by (destruct Hrc as [->|(_ & ? & ->)]; lia).
      pose proof (run_counters limit (S t) n' s' Hs') as Hb.
      specialize (IH (S t) n' s' Hs').
      destruct (Graph.run w limit (S t) n' s') as [trace r']; simpl in *.
      constructor; [assumption|].
      eapply Forall_impl; [|exact Hb].
      intros p [_ Hp]. simpl. lia. }
    destruct n; try exact (Hgo _ eq_refl). constructor.
Qed.

End CounterFacts.

(** C2. In every run of the agent, whatever the language model, the parser,
    the clock and the executed scripts do, the retry counter of the state
    left by each node is between 0 and [max_retries] and never smaller than
    after the node before; and a transition changes the counter only when its
    node is [handle_error] and the counter is below [max_retries], and then
    by exactly one; [max_retries] never changes. *)
Theorem retry_counter_bounded (w : Graph.World) (limit : nat)
    (instruction base_url : string) :
  let trace := fst (Graph.run_agent w limit instruction base_url) in
  Forall
    (fun p =>
       (0 <= State.retry_count (snd p) <= State.max_retries (snd p))%Z
       /\ State.max_retries (snd p) = 3%Z)
    trace
  /\ StronglySorted
       (fun p q =>
          (State.retry_count (snd p) <= State.retry_count (snd q))%Z)
       trace
  /\ (forall (t : nat) (n n' : Graph.node) (s s' : State.AgentState),
        Graph.step w t n s = Executor.Returned (n', s') ->
        State.max_retries s' = State.max_retries s
        /\ (State.retry_count s' = State.retry_count s
            \/ n = Graph.handle_error
               /\ (State.retry_count s < State.max_retries s)%Z
               /\ State.retry_count s'
                  = (State.retry_count s + 1)%Z)).
Proof.
  cbv zeta. unfold Graph.run_agent.
  set (s0 := State.create_initial_state instruction base_url).
  assert (H0 : (State.retry_count s0 <= State.max_retries s0)%Z)
    by (simpl; lia).
  split; [|split].
  - eapply Forall_impl;
      [|apply (run_counters w limit 0 Graph.parse_instruction s0 H0)].
    intros p [Hm Hp]. simpl in Hm, Hp.
    rewrite Hm. split; [lia | reflexivity].
  - apply (run_monotone w limit 0 Graph.parse_instruction s0 H0).
  - apply step_counters.
Qed.

(** ** A failing translator *)

(** A run that finished stays the same when it is given more steps. *)
Lemma run_more_fuel (w : Graph.World) (limit k : nat) :
  forall (t : nat) (n : Graph.node) (s final : State.AgentState),
    snd (Graph.run w limit t n s) = Graph.Finished final ->
    Graph.run w (limit + k) t n s = Graph.run w limit t n s.
Proof.
  induction limit as [|limit IH]; intros t n s final Hfin.
  - destruct n; try discriminate Hfin. destruct k; reflexivity.
  - destruct n; try reflexivity;
      cbn [Nat.add Graph.run] in *;
      (destruct (Graph.step w t _ s) as [[n' s']|e]; [|discriminate Hfin]);
      specialize (IH (S t) n' s' final);
      (destruct (Graph.run w limit (S t) n' s') as [trace r] eqn:E);
      simpl in Hfin; rewrite (IH Hfin); reflexivity.
Qed.

(** The first transition of a run. *)
Lemma run_parse_instruction (w : Graph.World) (limit t : nat)
    (s : State.AgentState) :
  Graph.run w (S limit) t Graph.parse_instruction s
  = (let (trace, r) :=
       Graph.run w limit (S t) Graph.generate_code
         (InstructionParser.parse_instruction (Graph.chain_invoke w) s) in
     ((Graph.parse_instruction,
       InstructionParser.parse_instruction (Graph.chain_invoke w) s)
      :: trace, r)).
Proof. reflexivity. Qed.

(** C6, as stated, fails: when the language model cannot be reached, the
    node after [parse_instruction] is [generate_code] and not
    [generate_report], and the run goes through [handle_error] three times
    before it reports. *)
Lemma translation_failure_is_retried :
  map fst
    (fst (Graph.run_agent Scenarios.offline_world 25 "log in"
            "http://localhost:5000"))
  = [ Graph.parse_instruction;
      Graph.generate_code; Graph.validate_code; Graph.handle_error;
      Graph.generate_code; Graph.validate_code; Graph.handle_error;
      Graph.generate_code; Graph.validate_code; Graph.handle_error;
      Graph.generate_report ]
  /\ In Graph.handle_error
       (map fst
          (fst (Graph.run_agent Scenarios.offline_world 25 "log in"
                  "http://localhost:5000")))
  /\ map fst
       (fst (Graph.run_agent Scenarios.offline_world 25 "log in"
               "http://localhost:5000"))
     <> [ Graph.parse_instruction; Graph.generate_report ].
Proof.
  assert (H :
    map fst
      (fst (Graph.run_agent Scenarios.offline_world 25 "log in"
              "http://localhost:5000"))
    = [ Graph.parse_instruction;
        Graph.generate_code; Graph.validate_code; Graph.handle_error;
        Graph.generate_code; Graph.validate_code; Graph.handle_error;
        Graph.generate_code; Graph.validate_code; Graph.handle_error;
        Graph.generate_report ]) by (vm_compute; reflexivity).
  rewrite H. split; [reflexivity|]. split; [|discriminate].
  simpl. tauto.
Qed.

(** C6, amended. If the translator fails, [parse_instruction] records the
    failure in [errors] and leaves an empty action list; the run then goes
    through [generate_code], [validate_code] and [handle_error] three times,
    the counter reaching 3 with nothing repaired, and only then reaches
    [generate_report], which gives a failed report with no step. *)
Theorem translation_failure_run (w : Graph.World)
    (instruction base_url e : string) (k : nat) :
  Graph.chain_invoke w instruction = InstructionParser.ChainRaises e ->
  map fst (fst (Graph.run_agent w (11 + k) instruction base_url))
  = [ Graph.parse_instruction;
      Graph.generate_code; Graph.validate_code; Graph.handle_error;
      Graph.generate_code; Graph.validate_code; Graph.handle_error;
      Graph.generate_code; Graph.validate_code; Graph.handle_error;
      Graph.generate_report ]
  /\ exists final : State.AgentState,
       snd (Graph.run_agent w (11 + k) instruction base_url)
       = Graph.Finished final
       /\ State.errors final
          = [ ("Failed to parse instruction: " ++ e)%string;
              "No parsed actions to generate code from";
              "No parsed actions to generate code from";
              "No parsed actions to generate code from" ]
       /\ State.parsed_actions final = []
       /\ State.retry_count final = 3%Z
       /\ TestReport.status (State.report final) = "FAILED"
       /\ TestReport.total_steps (State.report final) = 0%Z
       /\ TestReport.steps (State.report final) = [].
Proof.
  intros H. unfold Graph.run_agent.
  set (s0 := State.create_initial_state instruction base_url).
  assert (Hparse :
    InstructionParser.parse_instruction (Graph.chain_invoke w) s0
    = State.set_parsed_actions
        (State.errors_append s0
           ("Failed to parse instruction: " ++ e)%string) []).
  { unfold InstructionParser.parse_instruction.
    change (State.instruction s0) with instruction.
    rewrite H. reflexivity. }
  assert (Hrun :
    exists trace final,
      Graph.run w 11 0 Graph.parse_instruction s0
      = (trace, Graph.Finished final)
      /\ map fst trace
         = [ Graph.parse_instruction;
             Graph.generate_code; Graph.validate_code; Graph.handle_error;
             Graph.generate_code; Graph.validate_code; Graph.handle_error;
             Graph.generate_code; Graph.validate_code; Graph.handle_error;
             Graph.generate_report ]
      /\ State.errors final
         = [ ("Failed to parse instruction: " ++ e)%string;
             "No parsed actions to generate code from";
             "No parsed actions to generate code from";
             "No parsed actions to generate code from" ]
      /\ State.parsed_actions final = []
      /\ State.retry_count final = 3%Z
      /\ TestReport.status (State.report final) = "FAILED"
      /\ TestReport.total_steps (State.report final) = 0%Z
      /\ TestReport.steps (State.report final) = []).
  { rewrite run_parse_instruction, Hparse. subst s0.
    vm_compute.
    eexists. eexists. split; [reflexivity|]. repeat split; reflexivity. }
  destruct Hrun as (trace & final & Hrun & Hnodes & Hfinal).
  rewrite (run_more_fuel w 11 k 0 Graph.parse_instruction s0 final)
    by (rewrite Hrun; reflexivity).
  rewrite Hrun. simpl fst. simpl snd.
  split; [assumption|].
  exists final. split; [reflexivity | assumption].
Qed.

Lemma translation_failure_run_witness :
  map fst
    (fst (Graph.run_agent Scenarios.offline_world 11 "log in"
            "http://localhost:5000"))
  = [ Graph.parse_instruction;
      Graph.generate_code; Graph.validate_code; Graph.handle_error;
      Graph.generate_code; Graph.validate_code; Graph.handle_error;
      Graph.generate_code; Graph.validate_code; Graph.handle_error;
      Graph.generate_report ].
Proof.
  apply (translation_failure_run Scenarios.offline_world "log in"
           "http://localhost:5000" "API key not valid" 0).
  reflexivity.
Defined.

(** ** The code emitter *)

Section CodeGeneratorFacts.
Import State.

Lemma append_cancel_l (p a b : string) :
  (p ++ a)%string = (p ++ b)%string -> a = b.
Proof.
  induction p as [|c p IH]; simpl; intros H; [assumption|].
  inversion H; auto.
Qed.

Lemma length_append (a b : string) :
  String.length (a ++ b) = (String.length a + String.length b)%nat.
Proof. induction a as [|c a IH]; simpl; [reflexivity | rewrite IH; reflexivity]. Qed.

Lemma append_cancel_r (q a b : string) :
  (a ++ q)%string = (b ++ q)%string -> a = b.
Proof.
  revert b. induction a as [|c a IH]; intros [|d b] H; simpl in H.
  - reflexivity.
  - apply (f_equal String.length) in H. simpl in H.
    rewrite length_append in H. lia.
  - apply (f_equal String.length) in H. simpl in H.
    rewrite length_append in H. lia.
  - inversion H; subst. f_equal. apply IH. assumption.
Qed.

(** The script is the template's text before the timestamp, the timestamp,
    and a rest that does not depend on the timestamp. *)
Lemma render_shape (actions : list TestAction.t)
    (base_url instruction : string) :
  exists pre post : string,
    forall timestamp : string,
      CodeGenerator.render timestamp actions base_url instruction
      = inr (pre ++ timestamp ++ post)%string.
Proof.
  unfold CodeGenerator.render.
  generalize
    (String.concat PyStr.nl (CodeGenerator.step_codes actions 1 base_url)).
  generalize
    (PyStr.replace (ascii_of_nat 34) (PyStr.bs ++ PyStr.dq)%string
       instruction).
  intros ins steps.
  exists (PyStr.dq ++ PyStr.dq ++ PyStr.dq ++ PyStr.nl
            ++ "Auto-generated Playwright Test Script" ++ PyStr.nl
            ++ "Generated: ")%string.
  eexists. intros ts.
  vm_compute. reflexivity.
Qed.

End CodeGeneratorFacts.

(** C7, as stated, fails: two calls of the emitter on the same actions, base
    URL and instruction, one second apart, give different script texts. *)
Lemma emitted_scripts_differ :
  State.generated_code
    (CodeGenerator.generate_code "2026-01-01T00:00:00"
       Scenarios.click_go_request)
  <> State.generated_code
       (CodeGenerator.generate_code "2026-01-01T00:00:01"
          Scenarios.click_go_request)
  /\ String.eqb
       (State.generated_code
          (CodeGenerator.generate_code "2026-01-01T00:00:00"
             Scenarios.click_go_request))
       (State.generated_code
          (CodeGenerator.generate_code "2026-01-01T00:00:01"
             Scenarios.click_go_request))
     = false.
Proof.
  assert (H :
    String.eqb
      (State.generated_code
         (CodeGenerator.generate_code "2026-01-01T00:00:00"
            Scenarios.click_go_request))
      (State.generated_code
         (CodeGenerator.generate_code "2026-01-01T00:00:01"
            Scenarios.click_go_request))
    = false) by (vm_compute; reflexivity).
  split; [|exact H].
  apply String.eqb_neq. exact H.
Qed.

(** C7, amended. With an empty action list the emitter gives the same state,
    with an empty script, whenever it is called. With a non-empty action list
    the script is a fixed text, then the time of the call, then a text fixed
    by the actions, the base URL and the instruction; so two calls on the same
    actions, base URL and instruction give the same script exactly when they
    read the same time. *)
Theorem emitted_script_equal_iff_same_time (t1 t2 : string)
    (state : State.AgentState) :
  match State.parsed_actions state with
  | [] =>
      CodeGenerator.generate_code t1 state
      = CodeGenerator.generate_code t2 state
      /\ State.generated_code (CodeGenerator.generate_code t1 state)
         = EmptyString
  | _ :: _ =>
      (exists pre post : string,
         forall t : string,
           State.generated_code (CodeGenerator.generate_code t state)
           = (pre ++ t ++ post)%string)
      /\ (State.generated_code (CodeGenerator.generate_code t1 state)
          = State.generated_code (CodeGenerator.generate_code t2 state)
          <-> t1 = t2)
  end.
Proof.
  unfold CodeGenerator.generate_code.
  destruct (State.parsed_actions state) as [|a rest] eqn:Hacts.
  - split; reflexivity.
  - destruct (render_shape (a :: rest) (State.base_url state)
                (State.instruction state)) as (pre & post & Hshape).
    split.
    + exists pre, post. intros t. rewrite Hshape. reflexivity.
    + rewrite !Hshape. simpl. split.
      * intros H. apply append_cancel_l in H.
        apply append_cancel_r in H. assumption.
      * intros ->. reflexivity.
Qed.

(** ** The executor *)

(** C8. [execute_test] lets a fault through to its caller when the script's
    [run_test] returns something that is not a dict (the result is read with
    [.get] outside any [try]), and [execute_code_safely] lets through a fault
    that is not an instance of [Exception]; a fault that is one is returned
    as a failed result with its message. *)
Theorem execute_test_lets_faults_through :
  Executor.execute_test Scenarios.interpreter 1767225600 12
    (Scenarios.ready_state Scenarios.none_script)
  = Executor.Raised
      (Executor.mkFault true "AttributeError"
         "'NoneType' object has no attribute 'get'" "")
  /\ Executor.execute_test Scenarios.interpreter 1767225600 12
       (Scenarios.ready_state Scenarios.exit_script)
     = Executor.Raised (Executor.mkFault false "SystemExit" "1" "")
  /\ (forall (py_run : string -> Executor.ScriptRun) (code : string)
         (e : Executor.PyFault),
         Executor.is_exception e = true ->
         py_run code = Executor.ExecRaises e
         \/ py_run code = Executor.RunTestRaises e ->
         Executor.execute_code_safely py_run code
         = Executor.Returned
             (Executor.failure_dict
                (Executor.type_name e ++ ": " ++ Executor.message e
                   ++ PyStr.nl ++ Executor.traceback e)%string)).
Proof.
  split; [vm_compute; reflexivity|].
  split; [vm_compute; reflexivity|].
  intros py_run code e He [H|H];
    unfold Executor.execute_code_safely; rewrite H, He; reflexivity.
Qed.

(** * Further properties of the code *)

(** ** The shape of every run *)

Section RunShape.
Import State.

Variable w : Graph.World.

Lemma validate_code_invalid (ast_parse : string -> Validator.ParseOutcome)
    (s s' : AgentState) :
  Validator.validate_code ast_parse s = Executor.Returned s' ->
  Validator.is_valid s' = false.
Proof.
  intros H. pose proof (validate_code_outcome ast_parse s) as Ho.
  rewrite H in Ho. destruct Ho as (v & -> & Hv). exact Hv.
Qed.

Lemma validate_code_keeps (ast_parse : string -> Validator.ParseOutcome)
    (s s' : AgentState) :
  Validator.validate_code ast_parse s = Executor.Returned s' ->
  retry_count s' = retry_count s /\ max_retries s' = max_retries s
  /\ execution_result s' = execution_result s.
Proof.
  intros H. pose proof (validate_code_outcome ast_parse s) as Ho.
  rewrite H in Ho. destruct Ho as (v & -> & _). repeat split.
Qed.

Lemma generate_code_keeps (ts : string) (s : AgentState) :
  let s' := CodeGenerator.generate_code ts s in
  retry_count s' = retry_count s /\ max_retries s' = max_retries s
  /\ execution_result s' = execution_result s.
Proof.
  unfold CodeGenerator.generate_code.
  destruct (parsed_actions s); [repeat split|].
  destruct (CodeGenerator.render ts _ (base_url s) (instruction s));
    repeat split.
Qed.

(** With budget left and an invalid script, [handle_error] adds one to the
    counter, keeps the execution result and leaves the script invalid. *)
Lemma handle_error_invalid (s : AgentState) :
  (retry_count s < max_retries s)%Z ->
  ValidationResult.is_valid (validation_result s) = false ->
  let s' := ErrorHandler.handle_error s in
  retry_count s' = (retry_count s + 1)%Z
  /\ max_retries s' = max_retries s
  /\ execution_result s' = execution_result s
  /\ ValidationResult.is_valid (validation_result s') = false.
Proof.
  intros Hlt Hv. cbv zeta.
  destruct (handle_error_within_budget s Hlt)
    as [-> | (msg & f & n & alts & _ & _ & _ & [[_ ->] | [_ ->]])];
    simpl; repeat split; assumption.
Qed.

Lemma run_step (limit t : nat) (n n' : Graph.node) (s s' : AgentState) :
  n <> Graph.END ->
  Graph.step w t n s = Executor.Returned (n', s') ->
  Graph.run w (S limit) t n s
  = ((n, s') :: fst (Graph.run w limit (S t) n' s'),
     snd (Graph.run w limit (S t) n' s')).
Proof.
  intros Hn Hstep.
  destruct n; try (contradiction Hn; reflexivity);
    cbn [Graph.run]; rewrite Hstep;
    destruct (Graph.run w limit (S t) n' s'); reflexivity.
Qed.

Lemma run_crash (limit t : nat) (n : Graph.node) (s : AgentState)
    (e : Executor.PyFault) :
  n <> Graph.END ->
  Graph.step w t n s = Executor.Raised e ->
  Graph.run w (S limit) t n s = ([], Graph.Crashed e).
Proof.
  intros Hn Hstep.
  destruct n; try (contradiction Hn; reflexivity);
    cbn [Graph.run]; rewrite Hstep; reflexivity.
Qed.

Lemma run_END (limit t : nat) (s : AgentState) :
  Graph.run w limit t Graph.END s = ([], Graph.Finished s).
Proof. destruct limit; reflexivity. Qed.

(** One round of generation, validation and error handling: the parser
    stops the run inside [validate_code], or the round is completed and the
    counter has grown by one. *)
Lemma run_cycle (limit t : nat) (s : AgentState) :
  (retry_count s < max_retries s)%Z ->
  (exists (s1 : AgentState) (e : Executor.PyFault),
     Graph.ast_parse w (generated_code s1) = Validator.ParseRaises e
     /\ Graph.run w (S (S (S limit))) t Graph.generate_code s
        = ([(Graph.generate_code, s1)], Graph.Crashed e))
  \/ (exists s1 s2 s3 : AgentState,
        Graph.run w (S (S (S limit))) t Graph.generate_code s
        = ((Graph.generate_code, s1) :: (Graph.validate_code, s2)
             :: (Graph.handle_error, s3)
             :: fst (Graph.run w limit (S (S (S t)))
                       (if (retry_count s + 1 <? max_retries s)%Z
                        then Graph.generate_code else Graph.generate_report)
                       s3),
           snd (Graph.run w limit (S (S (S t)))
                  (if (retry_count s + 1 <? max_retries s)%Z
                   then Graph.generate_code else Graph.generate_report)
                  s3))
        /\ retry_count s3 = (retry_count s + 1)%Z
        /\ max_retries s3 = max_retries s
        /\ execution_result s3 = execution_result s).
Proof.
  intros Hlt.
  set (s1 := CodeGenerator.generate_code (Graph.now_isoformat w t) s).
  destruct (generate_code_keeps (Graph.now_isoformat w t) s)
    as (Hr1 & Hm1 & He1). fold s1 in Hr1, Hm1, He1.
  assert (Hstep1 :
    Graph.step w t Graph.generate_code s
    = Executor.Returned (Graph.validate_code, s1)) by reflexivity.
  pose proof (validate_code_outcome (Graph.ast_parse w) s1) as Hout.
  destruct (Validator.validate_code (Graph.ast_parse w) s1) as [s2|e] eqn:Ev.
  - right. clear Hout.
    destruct (validate_code_keeps _ _ _ Ev) as (Hr2 & Hm2 & He2).
    pose proof (validate_code_invalid _ _ _ Ev) as Hv2.
    unfold Validator.is_valid in Hv2.
    set (s3 := ErrorHandler.handle_error s2).
    assert (Hlt2 : (retry_count s2 < max_retries s2)%Z) by congruence.
    destruct (handle_error_invalid s2 Hlt2 Hv2) as (Hr3 & Hm3 & He3 & Hv3).
    fold s3 in Hr3, Hm3, He3, Hv3.
    exists s1, s2, s3. split; [|repeat split; congruence].
    rewrite (run_step _ t Graph.generate_code Graph.validate_code s s1);
      [|discriminate|exact Hstep1].
    rewrite (run_step _ (S t) Graph.validate_code Graph.handle_error s1 s2);
      [|discriminate|].
    2:{ cbn [Graph.step]. rewrite Ev. unfold Graph.route_after_validation.
        unfold Validator.is_valid. rewrite Hv2. reflexivity. }
    cbn [fst snd].
    rewrite (run_step _ (S (S t)) Graph.handle_error
               (if (retry_count s + 1 <? max_retries s)%Z
                then Graph.generate_code else Graph.generate_report) s2 s3);
      [reflexivity|discriminate|].
    cbn [Graph.step]. fold s3.
    unfold Graph.route_after_error_handler, ErrorHandler.should_retry.
    rewrite Hr3, Hm3, Hv3, Hr2, Hm2, Hr1, Hm1. cbn [negb].
    destruct (Z.geb_spec (retry_count s + 1) (max_retries s));
      destruct (Z.ltb_spec (retry_count s + 1) (max_retries s));
      try lia; reflexivity.
  - left. exists s1, e. split; [exact Hout|].
    rewrite (run_step _ t Graph.generate_code Graph.validate_code s s1);
      [|discriminate|exact Hstep1].
    rewrite (run_crash _ (S t) Graph.validate_code s1 e);
      [reflexivity|discriminate|].
    cbn [Graph.step]. rewrite Ev. reflexivity.
Qed.

End RunShape.

(** X1. No run of the agent executes a test or reports a pass, whatever the
    language model, the parser, the clock and the interpreter do. The nodes
    a run executes are a prefix of [parse_instruction], then three rounds
    of [generate_code], [validate_code] and [handle_error], then
    [generate_report], and [execute_test] is not among them. A run that
    finishes has executed all eleven, ends with the counter at 3, and its
    report is "FAILED" with no step. A run that does not finish was stopped
    inside [validate_code] by a fault of the parser that is not a syntax
    error. Eleven steps are enough for every run. *)
Theorem every_run_fails_or_crashes (w : Graph.World)
    (instruction base_url : string) (k : nat) :
  ~ In Graph.execute_test
      (map fst (fst (Graph.run_agent w (11 + k) instruction base_url)))
  /\ (exists rest : list Graph.node,
        map fst (fst (Graph.run_agent w (11 + k) instruction base_url))
          ++ rest
        = [ Graph.parse_instruction;
            Graph.generate_code; Graph.validate_code; Graph.handle_error;
            Graph.generate_code; Graph.validate_code; Graph.handle_error;
            Graph.generate_code; Graph.validate_code; Graph.handle_error;
            Graph.generate_report ])
  /\ match snd (Graph.run_agent w (11 + k) instruction base_url) with
     | Graph.Finished final =>
         map fst (fst (Graph.run_agent w (11 + k) instruction base_url))
         = [ Graph.parse_instruction;
             Graph.generate_code; Graph.validate_code; Graph.handle_error;
             Graph.generate_code; Graph.validate_code; Graph.handle_error;
             Graph.generate_code; Graph.validate_code; Graph.handle_error;
             Graph.generate_report ]
         /\ State.retry_count final = 3%Z
         /\ TestReport.status (State.report final) = "FAILED"
         /\ TestReport.total_steps (State.report final) = 0%Z
         /\ TestReport.passed (State.report final) = 0%Z
         /\ TestReport.failed (State.report final) = 0%Z
     | Graph.Crashed e =>
         exists code : string,
           Graph.ast_parse w code = Validator.ParseRaises e
     | Graph.OutOfSteps => False
     end.
Proof.
  unfold Graph.run_agent.
  set (s0 := State.create_initial_state instruction base_url).
  set (sp := InstructionParser.parse_instruction (Graph.chain_invoke w) s0).
  assert (Hp : State.retry_count sp = 0%Z /\ State.max_retries sp = 3%Z
               /\ State.execution_result sp
                  = ExecutionResult.mk false [] 0 [] None).
  { subst sp. unfold InstructionParser.parse_instruction.
    destruct (Graph.chain_invoke w (State.instruction s0)); repeat split. }
  destruct Hp as (Hrp & Hmp & Hep).
  change (11 + k)%nat with (S (S (S (S (S (S (S (S (S (S (S k))))))))))).
  rewrite (run_step w _ 0 Graph.parse_instruction Graph.generate_code s0 sp);
    [|discriminate|reflexivity].
  assert (Hcrash :
    forall (nodes : list Graph.node) (e : Executor.PyFault) (code : string),
      Graph.ast_parse w code = Validator.ParseRaises e ->
      ~ In Graph.execute_test nodes ->
      (exists rest,
         nodes ++ rest
         = [ Graph.parse_instruction;
             Graph.generate_code; Graph.validate_code; Graph.handle_error;
             Graph.generate_code; Graph.validate_code; Graph.handle_error;
             Graph.generate_code; Graph.validate_code; Graph.handle_error;
             Graph.generate_report ]) ->
      ~ In Graph.execute_test nodes
      /\ (exists rest,
            nodes ++ rest
            = [ Graph.parse_instruction;
                Graph.generate_code; Graph.validate_code;
                Graph.handle_error;
                Graph.generate_code; Graph.validate_code;
                Graph.handle_error;
                Graph.generate_code; Graph.validate_code;
                Graph.handle_error;
                Graph.generate_report ])
      /\ exists code : string,
           Graph.ast_parse w code = Validator.ParseRaises e).
  { intros nodes e code He Hn Hr. split; [exact Hn|]. split; [exact Hr|].
    exists code. exact He. }
  assert (Hnot :
    forall nodes : list Graph.node,
      forallb
        (fun n => match n with Graph.execute_test => false | _ => true end)
        nodes = true ->
      ~ In Graph.execute_test nodes).
  { intros nodes Hall Hin.
    rewrite forallb_forall in Hall. specialize (Hall _ Hin).
    discriminate Hall. }
  destruct (run_cycle w (S (S (S (S (S (S (S k))))))) 1 sp)
    as [(a1 & e & Hea & Ha) | (a1 & a2 & a3 & Ha & Hra & Hma & Hea)];
    [lia| |].
  { rewrite Ha. cbn [fst snd map].
    apply (Hcrash _ e _ Hea); [apply Hnot; reflexivity|].
    eexists. reflexivity. }
  rewrite Ha. rewrite Hrp, Hmp.
  cbn [Z.add Z.ltb Z.compare Pos.add Pos.compare Pos.compare_cont fst snd].
  rewrite Hrp in Hra. rewrite Hmp in Hma. rewrite Hep in Hea.
  destruct (run_cycle w (S (S (S (S k)))) 4 a3)
    as [(b1 & e & Heb & Hb) | (b1 & b2 & b3 & Hb & Hrb & Hmb & Heb)];
    [lia| |].
  { rewrite Hb. cbn [fst snd map].
    apply (Hcrash _ e _ Heb); [apply Hnot; reflexivity|].
    eexists. reflexivity. }
  rewrite Hb. rewrite Hra, Hma.
  cbn [Z.add Z.ltb Z.compare Pos.add Pos.succ Pos.compare Pos.compare_cont
       fst snd].
  rewrite Hra in Hrb. rewrite Hma in Hmb. rewrite Hea in Heb.
  destruct (run_cycle w (S k) 7 b3)
    as [(c1 & e & Hec & Hc) | (c1 & c2 & c3 & Hc & Hrc & Hmc & Hec)];
    [lia| |].
  { rewrite Hc. cbn [fst snd map].
    apply (Hcrash _ e _ Hec); [apply Hnot; reflexivity|].
    eexists. reflexivity. }
  rewrite Hc. rewrite Hrb, Hmb.
  cbn [Z.add Z.ltb Z.compare Pos.add Pos.succ Pos.compare Pos.compare_cont
       fst snd].
  rewrite Hrb in Hrc. rewrite Hmb in Hmc. rewrite Heb in Hec.
  rewrite (run_step w k 10 Graph.generate_report Graph.END c3
             (Reporter.generate_report (Graph.now_strftime w 10) c3));
    [|discriminate|reflexivity].
  rewrite run_END. cbn [fst snd map].
  split; [apply Hnot; reflexivity|].
  split; [exists []; reflexivity|].
  split; [reflexivity|].
  unfold Reporter.generate_report. rewrite Hec.
  repeat split; assumption || reflexivity.
Qed.

(** ** Strings and matches *)

Section StringFacts.

Lemma append_nil_r (s : string) : (s ++ EmptyString)%string = s.
Proof. induction s as [|c s IH]; simpl; [reflexivity | rewrite IH; reflexivity]. Qed.

Lemma append_assoc (a b c : string) :
  ((a ++ b) ++ c)%string = (a ++ (b ++ c))%string.
Proof. induction a as [|x a IH]; simpl; [reflexivity | rewrite IH; reflexivity]. Qed.

Lemma count_append (c : ascii) (a b : string) :
  PyStr.count c (a ++ b) = (PyStr.count c a + PyStr.count c b)%Z.
Proof.
  induction a as [|x a IH]; simpl; [reflexivity|]. rewrite IH. lia.
Qed.

Lemma count_nonneg (c : ascii) (a : string) : (0 <= PyStr.count c a)%Z.
Proof.
  induction a as [|x a IH]; simpl; [lia|].
  destruct (Ascii.eqb x c); lia.
Qed.

Lemma strip_prefix_split (l s s' : string) :
  PyStr.strip_prefix l s = Some s' -> s = (l ++ s')%string.
Proof.
  revert s. induction l as [|a l IH]; intros s H; simpl in H.
  - inversion H; reflexivity.
  - destruct s as [|b s]; [discriminate|].
    destruct (Ascii.eqb_spec a b) as [->|]; [|discriminate].
    simpl. f_equal. apply IH. assumption.
Qed.

Lemma strip_prefix_append (l s : string) :
  PyStr.strip_prefix l (l ++ s) = Some s.
Proof.
  induction l as [|a l IH]; simpl; [reflexivity|].
  rewrite Ascii.eqb_refl. assumption.
Qed.

(** What a greedy repetition consumed is in the class, and the rest of the
    pattern matched after it. *)
Lemma rep_greedy_split (c : Re.cls)
    (k : string -> string -> option Re.result) (s acc : string)
    (r : Re.result) :
  Re.rep_greedy c k acc s = Some r ->
  exists g s',
    s = (g ++ s')%string /\ Re.all_in c g = true
    /\ k (acc ++ g)%string s' = Some r.
Proof.
  revert acc. induction s as [|a t IH]; intros acc H; simpl in H.
  - exists EmptyString, EmptyString. rewrite (append_nil_r acc). auto.
  - destruct (Re.cls_match c a) eqn:Hc.
    + destruct (Re.rep_greedy c k (acc ++ String a EmptyString) t) eqn:E.
      * inversion H; subst.
        apply IH in E as (g & s' & -> & Hg & Hk).
        exists (String a g), s'. simpl. rewrite Hc, Hg.
        rewrite append_assoc in Hk. auto.
      * exists EmptyString, (String a t). rewrite (append_nil_r acc). auto.
    + exists EmptyString, (String a t). rewrite (append_nil_r acc). auto.
Qed.

(** A greedy repetition of the class of all characters but [c], in front of
    a [c], takes everything up to that [c] when the rest of the pattern
    matches there. *)
Lemma rep_greedy_not_upto (c : ascii)
    (k : string -> string -> option Re.result) (g rest acc : string)
    (r : Re.result) :
  PyStr.count c g = 0%Z ->
  k (acc ++ g)%string (String c rest) = Some r ->
  Re.rep_greedy (Re.Not c) k acc (g ++ String c rest) = Some r.
Proof.
  revert acc. induction g as [|a g IH]; intros acc Hg Hk; simpl.
  - rewrite Ascii.eqb_refl. simpl. rewrite append_nil_r in Hk. assumption.
  - simpl in Hg. pose proof (count_nonneg c g).
    destruct (Ascii.eqb a c) eqn:Hac; [lia|]. simpl.
    rewrite (IH (acc ++ String a EmptyString)%string); [reflexivity|lia|].
    rewrite append_assoc. assumption.
Qed.

Lemma all_in_not_count (c : ascii) (g : string) :
  Re.all_in (Re.Not c) g = true -> PyStr.count c g = 0%Z.
Proof.
  induction g as [|a g IH]; simpl; [reflexivity|].
  destruct (Ascii.eqb a c); simpl; [discriminate|]. assumption.
Qed.

Lemma search_split (p : list Re.item) (s : string) (caps : list string) :
  Re.search p s = Some caps ->
  exists pre s' rest,
    s = (pre ++ s')%string /\ Re.match_items p [] s' = Some (caps, rest).
Proof.
  induction s as [|a t IH]; simpl; intros H.
  - destruct (Re.match_items p [] EmptyString) as [[c r]|] eqn:E;
      [|discriminate].
    inversion H; subst. exists EmptyString, EmptyString, r. auto.
  - destruct (Re.match_items p [] (String a t)) as [[c r]|] eqn:E.
    + inversion H; subst. exists EmptyString, (String a t), r. auto.
    + apply IH in H as (pre & s' & rest & -> & Hm).
      exists (String a pre), s', rest. auto.
Qed.

Lemma search_here (p : list Re.item) (s : string) (caps : list string)
    (rest : string) :
  Re.match_items p [] s = Some (caps, rest) -> Re.search p s = Some caps.
Proof.
  intros H. destruct s; simpl; rewrite H; reflexivity.
Qed.

End StringFacts.

(** X2. A failure message that starts with the words Selector, the selector
    in double quotes, not found, for a non-empty selector with no double
    quote in it, gives back exactly that selector, whatever text follows. *)
Theorem extract_failed_selector_round_trip (sel rest : string) :
  PyStr.truthy sel = true ->
  PyStr.count (ascii_of_nat 34) sel = 0%Z ->
  ErrorHandler.extract_failed_selector
    ("Selector " ++ PyStr.dq ++ sel ++ PyStr.dq ++ " not found" ++ rest)
  = Some sel.
Proof.
  intros Hsel Hq.
  unfold ErrorHandler.extract_failed_selector, ErrorHandler.patterns.
  cbn [ErrorHandler.first_match].
  rewrite (search_here _ _ [sel] rest); [reflexivity|].
  cbn [Re.match_items].
  change ("Selector " ++ PyStr.dq ++ sel ++ PyStr.dq ++ " not found" ++ rest)%string
    with (("Selector " ++ PyStr.dq)
            ++ (sel ++ String (ascii_of_nat 34) (" not found" ++ rest)))%string.
  rewrite strip_prefix_append.
  apply rep_greedy_not_upto; [exact Hq|].
  cbv beta. change (EmptyString ++ sel)%string with sel. rewrite Hsel.
  change (String (ascii_of_nat 34) (" not found" ++ rest))%string
    with ((PyStr.dq ++ " not found") ++ rest)%string.
  rewrite strip_prefix_append. reflexivity.
Qed.

Lemma extract_failed_selector_round_trip_witness :
  ErrorHandler.extract_failed_selector
    ("Selector " ++ PyStr.dq ++ "#login-btn" ++ PyStr.dq ++ " not found"
       ++ " after 30000ms")
  = Some "#login-btn".
Proof.
  apply (extract_failed_selector_round_trip "#login-btn" " after 30000ms");
    reflexivity.
Defined.

(** ** More on the recovery engine *)

Section RepairFacts.
Import State ErrorHandler.

Lemma handle_error_no_selector (s : AgentState) (msg : string) :
  (retry_count s < max_retries s)%Z ->
  error_message_of s = Some msg ->
  extract_failed_selector msg = None ->
  handle_error s = set_retry_count s (retry_count s + 1).
Proof.
  intros Hlt Hmsg Hnone. unfold handle_error.
  destruct (Z.geb_spec (retry_count s) (max_retries s)); [lia|].
  rewrite error_message_of_retry, Hmsg, Hnone.
  destruct (PyStr.truthy msg); reflexivity.
Qed.

(** The message [validate_code] leaves for a script that parses names no
    selector. *)
Lemma validate_code_message (ast_parse : string -> Validator.ParseOutcome)
    (s : AgentState) :
  ast_parse (generated_code s) = Validator.Parses ->
  exists msg : string,
    Validator.validate_code ast_parse s
    = Executor.Returned
        (set_validation_result s
           (ValidationResult.mk false (Some msg) (Some 0%Z)))
    /\ extract_failed_selector msg = None.
Proof.
  intros Hparse. unfold Validator.validate_code.
  destruct (negb (PyStr.truthy (generated_code s))).
  { eexists. split; [reflexivity | vm_compute; reflexivity]. }
  unfold Validator.check_syntax. rewrite Hparse.
  cbv zeta. rewrite check_selectors_always.
  unfold Validator.check_required_imports, Validator.required_imports,
    Validator.check_function_structure.
  cbn [Validator.first_missing].
  destruct (PyStr.contains "playwright" (generated_code s));
    [|eexists; split; [reflexivity | vm_compute; reflexivity]].
  destruct (PyStr.contains "sync_playwright" (generated_code s));
    [|eexists; split; [reflexivity | vm_compute; reflexivity]].
  destruct (PyStr.contains "def run_test" (generated_code s));
    [|eexists; split; [reflexivity | vm_compute; reflexivity]].
  destruct (PyStr.contains "launch(" (generated_code s));
    [|eexists; split; [reflexivity | vm_compute; reflexivity]].
  destruct (PyStr.contains "close()" (generated_code s));
    eexists; (split; [reflexivity | vm_compute; reflexivity]).
Qed.

Lemma unique_from_spec (alternatives seen : list string) :
  NoDup (unique_from seen alternatives)
  /\ (forall x, In x (unique_from seen alternatives) ->
                In x alternatives /\ ~ In x seen).
Proof.
  revert seen. induction alternatives as [|a rest IH]; intros seen; simpl.
  - split; [constructor | intros x []].
  - destruct (existsb (String.eqb a) seen) eqn:E.
    + destruct (IH seen) as [Hnd Hin]. split; [assumption|].
      intros x Hx. destruct (Hin x Hx). auto.
    + destruct (IH (a :: seen)) as [Hnd Hin]. split.
      * constructor; [|assumption]. intros Ha.
        destruct (Hin a Ha) as [_ Hns]. apply Hns. left; reflexivity.
      * intros x [<-|Hx].
        -- split; [left; reflexivity|]. intros Hs.
           assert (existsb (String.eqb a) seen = true).
           { apply existsb_exists. exists a. split; [assumption|].
             apply String.eqb_refl. }
           congruence.
        -- destruct (Hin x Hx) as [Hr Hns]. split; [right; assumption|].
           intros Hs. apply Hns. right; assumption.
Qed.

Lemma firstn_In {A : Type} (n : nat) (l : list A) (x : A) :
  In x (firstn n l) -> In x l.
Proof.
  revert l. induction n as [|n IH]; intros [|a l]; simpl; try tauto.
  intros [H|H]; [left; assumption | right; apply IH; assumption].
Qed.

Lemma firstn_NoDup {A : Type} (n : nat) (l : list A) :
  NoDup l -> NoDup (firstn n l).
Proof.
  revert l. induction n as [|n IH]; intros [|a l] H; simpl;
    try constructor.
  - inversion H; subst. intros Hin. apply firstn_In in Hin. contradiction.
  - inversion H; subst. apply IH. assumption.
Qed.

End RepairFacts.

(** X3. When the script parses, [validate_code] returns, the failure it
    records names no selector, and [handle_error], with budget left, does
    nothing to the validated state but add one to the counter: actions,
    script and validation result are the ones it was given. *)
Theorem validation_failure_is_not_repaired
    (ast_parse : string -> Validator.ParseOutcome)
    (s : State.AgentState) :
  ast_parse (State.generated_code s) = Validator.Parses ->
  (State.retry_count s < State.max_retries s)%Z ->
  exists validated : State.AgentState,
    Validator.validate_code ast_parse s = Executor.Returned validated
    /\ ErrorHandler.handle_error validated
       = State.set_retry_count validated (State.retry_count s + 1).
Proof.
  intros Hparse Hlt.
  destruct (validate_code_message ast_parse s Hparse) as (msg & Hv & Hnone).
  eexists. split; [exact Hv|].
  exact (handle_error_no_selector
           (State.set_validation_result s
              (ValidationResult.mk false (Some msg) (Some 0%Z)))
           msg Hlt eq_refl Hnone).
Qed.

Lemma validation_failure_is_not_repaired_witness :
  exists validated : State.AgentState,
    Validator.validate_code Scenarios.parses_everything
      Scenarios.click_go_state
    = Executor.Returned validated
    /\ ErrorHandler.handle_error validated
       = State.set_retry_count validated (0 + 1).
Proof.
  apply (validation_failure_is_not_repaired Scenarios.parses_everything
           Scenarios.click_go_state); reflexivity.
Defined.

(** X4. The list of suggestions has no duplicates, whatever the selector. *)
Theorem suggestions_have_no_duplicates (failed_selector : string) :
  NoDup (ErrorHandler.suggest_alternative_selectors failed_selector).
Proof.
  unfold ErrorHandler.suggest_alternative_selectors.
  apply firstn_NoDup. apply unique_from_spec.
Qed.

Section SuggestFacts.
Import ErrorHandler.

Local Abbreviation sq := ("'"%char) (only parsing).

Lemma first_quote_unique (a b x y : string) :
  PyStr.count sq a = 0%Z -> PyStr.count sq b = 0%Z ->
  (a ++ String sq x)%string = (b ++ String sq y)%string -> a = b.
Proof.
  revert b. induction a as [|c a IH]; intros [|d b] Ha Hb H; simpl in *.
  - reflexivity.
  - inversion H; subst. rewrite Ascii.eqb_refl in Hb.
    pose proof (count_nonneg sq b). lia.
  - inversion H; subst. rewrite Ascii.eqb_refl in Ha.
    pose proof (count_nonneg sq a). lia.
  - inversion H; subst. f_equal.
    pose proof (count_nonneg sq a). pose proof (count_nonneg sq b).
    apply (IH b); [destruct (Ascii.eqb d sq); lia
                  | destruct (Ascii.eqb d sq); lia | assumption].
Qed.

(** Where the pattern for a name attribute matches, and what it captures. *)
Lemma name_pattern_shape (s : string) (caps : list string) (f : string) :
  Re.search name_pattern s = Some caps ->
  Re.group 1 caps = Some f ->
  exists pre rest,
    s = (pre ++ "name=" ++ String sq (f ++ String sq rest))%string
    /\ PyStr.count sq f = 0%Z.
Proof.
  intros Hs Hg.
  apply search_split in Hs as (pre & s' & rest & -> & Hm).
  unfold name_pattern in Hm. cbn [Re.match_items] in Hm.
  destruct (PyStr.strip_prefix "name='" s') as [s1|] eqn:E1; [|discriminate].
  apply strip_prefix_split in E1. subst s'.
  apply rep_greedy_split in Hm as (g & s2 & -> & Hall & Hk).
  cbv beta in Hk. change (EmptyString ++ g)%string with g in Hk.
  destruct (PyStr.truthy g); [|discriminate].
  destruct (PyStr.strip_prefix "'" s2) as [s3|] eqn:E3; [|discriminate].
  apply strip_prefix_split in E3. subst s2.
  inversion Hk; subst. simpl in Hg. inversion Hg; subst.
  exists pre, rest. split; [reflexivity|].
  apply all_in_not_count. assumption.
Qed.

(** None of the three selectors built from a captured field name is the
    selector the name was captured from. *)
Lemma synthesized_differ (pre rest f : string) :
  PyStr.count sq f = 0%Z ->
  let s := (pre ++ "name=" ++ String sq (f ++ String sq rest))%string in
  ("#" ++ f)%string <> s
  /\ ("input[id='" ++ f ++ "']")%string <> s
  /\ ("[placeholder*='" ++ f ++ "']")%string <> s.
Proof.
  intros Hf s.
  assert (Hcount :
    PyStr.count sq s = (PyStr.count sq pre + 2 + PyStr.count sq rest)%Z).
  { subst s. rewrite !count_append. cbn -[Z.add].
    rewrite count_append. cbn -[Z.add]. lia. }
  pose proof (count_nonneg sq pre) as Hpre.
  pose proof (count_nonneg sq rest) as Hrest.
  assert (Hhead :
    forall head : string,
      PyStr.count sq head = 0%Z ->
      (head ++ String sq (f ++ "']"))%string = s ->
      head = (pre ++ "name=")%string).
  { intros head Hh Heq.
    assert (Hc : PyStr.count sq (head ++ String sq (f ++ "']")) = 2%Z).
    { rewrite count_append. cbn -[Z.add]. rewrite count_append.
      cbn -[Z.add]. lia. }
    rewrite Heq, Hcount in Hc.
    subst s. rewrite <- append_assoc in Heq.
    apply first_quote_unique in Heq; [assumption|assumption|].
    rewrite count_append. cbn -[Z.add]. lia. }
  split; [|split]; intros Heq.
  - assert (Hc : PyStr.count sq ("#" ++ f) = 0%Z) by (simpl; assumption).
    rewrite Heq, Hcount in Hc. lia.
  - apply (Hhead "input[id=") in Heq; [|reflexivity].
    apply (f_equal String.length) in Heq as Hlen.
    rewrite length_append in Hlen. simpl in Hlen.
    destruct pre as [|c1 [|c2 [|c3 [|c4 [|c5 pre]]]]]; simpl in Hlen;
      try lia.
    simpl in Heq. discriminate Heq.
  - apply (Hhead "[placeholder*=") in Heq; [|reflexivity].
    apply (f_equal String.length) in Heq as Hlen.
    rewrite length_append in Hlen. simpl in Hlen.
    destruct pre
      as [|c1 [|c2 [|c3 [|c4 [|c5 [|c6 [|c7 [|c8 [|c9 [|c10 pre]]]]]]]]]];
      simpl in Hlen; try lia.
    simpl in Heq. discriminate Heq.
Qed.

End SuggestFacts.

(** X5. When the selector, in lower case, contains neither "button" nor
    "submit", the list of suggestions does not contain the selector itself:
    the entries taken from the keyword table are filtered, and the entries
    built from a captured field name always differ from it. *)
Theorem suggestions_exclude_selector (failed_selector : string) :
  PyStr.contains "button" (PyStr.lower failed_selector) = false ->
  PyStr.contains "submit" (PyStr.lower failed_selector) = false ->
  ~ In failed_selector
      (ErrorHandler.suggest_alternative_selectors failed_selector).
Proof.
  intros Hb Hs Hin.
  unfold ErrorHandler.suggest_alternative_selectors in Hin.
  rewrite Hb, Hs in Hin. cbn [orb] in Hin.
  apply firstn_In in Hin. apply unique_from_spec in Hin as [Hin _].
  set (kept :=
    filter (fun s => negb (String.eqb s failed_selector))
      (ErrorHandler.keyword_alternatives ErrorHandler.SELECTOR_ALTERNATIVES
         (PyStr.lower failed_selector))) in Hin.
  assert (Hkept : ~ In failed_selector kept).
  { subst kept. intros H. apply filter_In in H as [_ H].
    rewrite String.eqb_refl in H. discriminate H. }
  destruct (PyStr.contains "input" (PyStr.lower failed_selector));
    [|contradiction].
  destruct (Re.search ErrorHandler.name_pattern failed_selector)
    as [caps|] eqn:Hsearch; [|contradiction].
  destruct (Re.group 1 caps) as [f|] eqn:Hgroup; [|contradiction].
  apply in_app_or in Hin as [Hin|Hin]; [contradiction|].
  destruct (name_pattern_shape _ _ _ Hsearch Hgroup)
    as (pre & rest & Hshape & Hf).
  destruct (synthesized_differ pre rest f Hf) as (H1 & H2 & H3).
  rewrite <- Hshape in H1, H2, H3.
  cbn [In] in Hin.
  destruct Hin as [H|[H|[H|[]]]]; [apply H1 | apply H2 | apply H3];
    exact H.
Qed.

Lemma suggestions_exclude_selector_witness :
  PyStr.contains "button" (PyStr.lower "input[name='username']") = false
  /\ ~ In "input[name='username']"
         (ErrorHandler.suggest_alternative_selectors
            "input[name='username']").
Proof.
  split; [reflexivity|].
  apply (suggestions_exclude_selector "input[name='username']");
    reflexivity.
Defined.

(** ** More on validation *)

Section SelectorCheckFacts.

Lemma first_alt_inv (alts : list string)
    (k : string -> string -> option Re.result) (s : string)
    (r : Re.result) :
  Re.first_alt alts k s = Some r -> exists a s', k a s' = Some r.
Proof.
  induction alts as [|a rest IH]; simpl; [discriminate|].
  destruct (PyStr.strip_prefix a s) as [s'|]; [|exact IH].
  destruct (k a s') eqn:E; [|exact IH].
  intros H; inversion H; subst. eauto.
Qed.

(** The second group of a match of the selector pattern has no double
    quote. *)
Lemma selector_pattern_group (s : string) (caps : list string)
    (rest : string) :
  Re.match_items Validator.selector_pattern [] s = Some (caps, rest) ->
  PyStr.count (ascii_of_nat 34) (nth 1 caps EmptyString) = 0%Z.
Proof.
  unfold Validator.selector_pattern. cbn [Re.match_items].
  destruct (PyStr.strip_prefix "page." s) as [s1|]; [|discriminate].
  intros H. apply first_alt_inv in H as (a & s2 & H).
  destruct (PyStr.strip_prefix ("(" ++ PyStr.dq) s2) as [s3|];
    [|discriminate].
  apply rep_greedy_split in H as (g & s4 & _ & Hall & H).
  destruct (PyStr.strip_prefix (PyStr.dq ++ ")") s4) as [s5|];
    [|discriminate].
  inversion H; subst. simpl.
  apply all_in_not_count. assumption.
Qed.

Lemma findall_selector_groups (fuel : nat) (s : string) :
  Forall
    (fun caps =>
       PyStr.count (ascii_of_nat 34) (nth 1 caps EmptyString) = 0%Z)
    (Re.findall_from fuel Validator.selector_pattern s).
Proof.
  revert s. induction fuel as [|fuel IH]; intros s; cbn [Re.findall_from];
    [constructor|].
  destruct (Re.match_items Validator.selector_pattern [] s)
    as [[caps rest]|] eqn:E.
  - apply selector_pattern_group in E.
    destruct (String.length rest <? String.length s)%nat.
    + constructor; [assumption | apply IH].
    + constructor; [assumption|]. destruct s; [constructor | apply IH].
  - destruct s; [constructor | apply IH].
Qed.

End SelectorCheckFacts.

(** X6. The test for unescaped quotes in [check_selectors] never rejects a
    script: the pattern captures a selector up to the first double quote, so
    a captured selector never has one. *)
Theorem unescaped_quote_test_never_fires (code : string) :
  Validator.first_unescaped (Re.findall Validator.selector_pattern code)
  = Validator.Pair true "".
Proof.
  unfold Re.findall.
  pose proof (findall_selector_groups (S (String.length code)) code) as H.
  induction H as [|caps l Hc _ IH]; simpl; [reflexivity|].
  rewrite Hc. simpl. exact IH.
Qed.

(** ** More on the code emitter *)

Section EmitterFacts.
Import State.

Lemma prefix_append (n a b : string) :
  String.prefix n a = true -> String.prefix n (a ++ b) = true.
Proof.
  revert n. induction a as [|d a IH]; intros [|c n] H; simpl in *.
  - destruct b; reflexivity.
  - discriminate H.
  - reflexivity.
  - destruct (ascii_dec c d); [apply IH; assumption | discriminate].
Qed.

Lemma contains_append_l (n a b : string) :
  PyStr.contains n a = true -> PyStr.contains n (a ++ b) = true.
Proof.
  induction a as [|c a IH]; intros H.
  - destruct n; [destruct b; reflexivity | discriminate H].
  - cbn [PyStr.contains String.append] in *.
    apply orb_true_iff in H as [H|H].
    + apply (prefix_append n (String c a) b) in H.
      cbn [String.append] in H. rewrite H. reflexivity.
    + rewrite (IH H). apply orb_true_r.
Qed.

Lemma contains_append_r (n a b : string) :
  PyStr.contains n b = true -> PyStr.contains n (a ++ b) = true.
Proof.
  intros H. induction a as [|c a IH]; [exact H|].
  cbn [PyStr.contains String.append]. rewrite IH. apply orb_true_r.
Qed.

(** The script is four fixed texts around the time of the call, the escaped
    instruction and the code of the steps; the marker strings the validator
    looks for are in the fixed texts. *)
Lemma render_pieces :
  exists c1 c2 c3 c4 : string,
    (forall (timestamp : string) (actions : list TestAction.t)
            (base_url instruction : string),
       CodeGenerator.render timestamp actions base_url instruction
       = inr (c1 ++ timestamp ++ c2
                ++ PyStr.replace (ascii_of_nat 34) (PyStr.bs ++ PyStr.dq)
                     instruction
                ++ c3
                ++ String.concat PyStr.nl
                     (CodeGenerator.step_codes actions 1 base_url)
                ++ c4)%string)
    /\ PyStr.truthy c1 = true
    /\ PyStr.contains "playwright" c3 = true
    /\ PyStr.contains "sync_playwright" c3 = true
    /\ PyStr.contains "def run_test" c3 = true
    /\ PyStr.contains "launch(" c3 = true
    /\ PyStr.contains "close()" c4 = true.
Proof.
  set (W :=
    match
      CodeGenerator.format CodeGenerator.PLAYWRIGHT_TEMPLATE
        [ ("timestamp", EmptyString); ("instruction", EmptyString);
          ("test_steps", EmptyString); ("record_video", "False") ]
    with
    | inr text => text
    | inl _ => EmptyString
    end).
  exists (String.substring 0 53 W), (String.substring 53 14 W),
    (String.substring 67 781 W), (String.substring 848 670 W).
  split.
  - intros timestamp actions base_url instruction.
    unfold CodeGenerator.render.
    generalize
      (String.concat PyStr.nl (CodeGenerator.step_codes actions 1 base_url)).
    generalize
      (PyStr.replace (ascii_of_nat 34) (PyStr.bs ++ PyStr.dq)%string
         instruction).
    intros ins steps. subst W. vm_compute. reflexivity.
  - subst W. repeat split; vm_compute; reflexivity.
Qed.

End EmitterFacts.

(** X7. For a non-empty action list, whatever the actions, the base URL, the
    instruction and the time are, [generate_code] does not fail: it adds no
    error, and the script it stores is not empty and passes the validator's
    checks of the required imports and of the function structure. *)
Theorem generated_script_has_markers (timestamp : string)
    (state : State.AgentState) :
  State.parsed_actions state <> [] ->
  let state' := CodeGenerator.generate_code timestamp state in
  State.errors state' = State.errors state
  /\ PyStr.truthy (State.generated_code state') = true
  /\ Validator.check_required_imports (State.generated_code state')
     = Validator.Pair true ""
  /\ Validator.check_function_structure (State.generated_code state')
     = Validator.Pair true "".
Proof.
  intros Hne. cbv zeta. unfold CodeGenerator.generate_code.
  destruct (State.parsed_actions state) as [|a rest];
    [contradiction Hne; reflexivity|].
  destruct render_pieces
    as (c1 & c2 & c3 & c4 & Hshape & H1 & Hp & Hsp & Hd & Hl & Hc).
  rewrite Hshape.
  change (State.errors (State.set_generated_code state ?c))
    with (State.errors state).
  change (State.generated_code (State.set_generated_code state ?c)) with c.
  set (ins :=
    PyStr.replace (ascii_of_nat 34) (PyStr.bs ++ PyStr.dq)%string
      (State.instruction state)).
  set (steps :=
    String.concat PyStr.nl
      (CodeGenerator.step_codes (a :: rest) 1 (State.base_url state))).
  assert (Hin3 :
    forall m, PyStr.contains m c3 = true ->
      PyStr.contains m
        (c1 ++ timestamp ++ c2 ++ ins ++ c3 ++ steps ++ c4)%string = true).
  { intros m Hm. do 4 apply contains_append_r.
    apply contains_append_l. assumption. }
  assert (Hin4 :
    PyStr.contains "close()"
      (c1 ++ timestamp ++ c2 ++ ins ++ c3 ++ steps ++ c4)%string = true).
  { do 6 apply contains_append_r. assumption. }
  split; [reflexivity|]. split.
  - destruct c1; [discriminate H1 | reflexivity].
  - unfold Validator.check_required_imports, Validator.required_imports,
      Validator.check_function_structure.
    cbn [Validator.first_missing].
    rewrite (Hin3 _ Hp), (Hin3 _ Hsp), (Hin3 _ Hd), (Hin3 _ Hl), Hin4.
    split; reflexivity.
Qed.

Lemma generated_script_has_markers_witness :
  State.parsed_actions Scenarios.click_go_request <> []
  /\ Validator.check_function_structure
       (State.generated_code
          (CodeGenerator.generate_code "2026-01-01T00:00:00"
             Scenarios.click_go_request))
     = Validator.Pair true "".
Proof.
  split; [discriminate|].
  apply (generated_script_has_markers "2026-01-01T00:00:00"
           Scenarios.click_go_request).
  discriminate.
Defined.

(** ** What the nodes keep *)

Section KeepFacts.
Import State.

Variable w : Graph.World.

Lemma handle_error_cases (s : AgentState) :
  (exists msg, ErrorHandler.handle_error s = errors_append s msg)
  \/ ErrorHandler.handle_error s = set_retry_count s (retry_count s + 1)
  \/ (exists f n,
        ErrorHandler.handle_error s
        = set_validation_result
            (set_generated_code
               (set_parsed_actions (set_retry_count s (retry_count s + 1))
                  (map (ErrorHandler.rewrite_one f n) (parsed_actions s)))
               EmptyString)
            (ValidationResult.set_is_valid (validation_result s) false))
  \/ (exists f n,
        ErrorHandler.handle_error s
        = set_parsed_actions (set_retry_count s (retry_count s + 1))
            (map (ErrorHandler.rewrite_one f n) (parsed_actions s))).
Proof.
  destruct (Z.lt_ge_cases (retry_count s) (max_retries s)) as [Hlt|Hge].
  - destruct (handle_error_within_budget s Hlt)
      as [H | (msg & f & n & alts & _ & _ & _ & [[_ H] | [_ H]])]; eauto 7.
  - left. unfold ErrorHandler.handle_error.
    destruct (Z.geb_spec (retry_count s) (max_retries s)); [|lia]. eauto.
Qed.

(** One transition keeps the instruction and the base URL and only appends
    to the error log. *)
Lemma step_keeps_inputs (t : nat) (n n' : Graph.node) (s s' : AgentState) :
  Graph.step w t n s = Executor.Returned (n', s') ->
  instruction s' = instruction s /\ base_url s' = base_url s
  /\ exists more, errors s' = errors s ++ more.
Proof.
  destruct n; cbn [Graph.step]; intros H.
  - inversion H; subst. unfold InstructionParser.parse_instruction.
    destruct (Graph.chain_invoke w (instruction s)); repeat split.
    + exists []. simpl. rewrite app_nil_r. reflexivity.
    + eexists. reflexivity.
  - inversion H; subst. unfold CodeGenerator.generate_code.
    destruct (parsed_actions s).
    + repeat split. eexists. reflexivity.
    + destruct (CodeGenerator.render _ _ (base_url s) (instruction s));
        repeat split.
      * eexists. reflexivity.
      * exists []. simpl. rewrite app_nil_r. reflexivity.
  - pose proof (validate_code_outcome (Graph.ast_parse w) s) as Ho.
    destruct (Validator.validate_code (Graph.ast_parse w) s) as [s1|e];
      [|discriminate].
    inversion H; subst. destruct Ho as (v & -> & _). repeat split.
    exists []. simpl. rewrite app_nil_r. reflexivity.
  - unfold Executor.execute_test in H.
    destruct (negb (PyStr.truthy (generated_code s))).
    { inversion H; subst. repeat split.
      exists []. simpl. rewrite app_nil_r. reflexivity. }
    destruct (negb (ValidationResult.is_valid (validation_result s))).
    { inversion H; subst. repeat split.
      exists []. simpl. rewrite app_nil_r. reflexivity. }
    destruct (Executor.execute_code_safely (Graph.py_run w t)
                (generated_code s)) as [[d|ty]|e];
      inversion H; subst. repeat split.
    exists []. simpl. rewrite app_nil_r. reflexivity.
  - inversion H; subst. repeat split.
    exists []. simpl. rewrite app_nil_r. reflexivity.
  - inversion H; subst.
    destruct (handle_error_cases s)
      as [[msg ->] | [-> | [(f & m & ->) | (f & m & ->)]]];
      repeat split; try (exists []; simpl; rewrite app_nil_r; reflexivity).
    eexists. reflexivity.
  - inversion H; subst. repeat split.
    exists []. rewrite app_nil_r. reflexivity.
Qed.

Lemma run_keeps_inputs (limit : nat) :
  forall (t : nat) (n : Graph.node) (s : AgentState),
    Forall
      (fun p =>
         instruction (snd p) = instruction s
         /\ base_url (snd p) = base_url s
         /\ exists more, errors (snd p) = errors s ++ more)
      (fst (Graph.run w limit t n s)).
Proof.
  induction limit as [|limit IH]; intros t n s.
  - destruct n; constructor.
  - assert (Hgo :
      forall r,
        Graph.step w t n s = r ->
        Forall
          (fun p =>
             instruction (snd p) = instruction s
             /\ base_url (snd p) = base_url s
             /\ exists more, errors (snd p) = errors s ++ more)
          (fst
             match r with
             | Executor.Raised e => ([], Graph.Crashed e)
             | Executor.Returned (n', state') =>
                 let (trace, r') := Graph.run w limit (S t) n' state' in
                 ((n, state') :: trace, r')
             end)).
    { intros [[n' s']|e] Hstep; [|constructor].
      destruct (step_keeps_inputs _ _ _ _ _ Hstep) as (Hi & Hb & m1 & He).
      specialize (IH (S t) n' s').
      destruct (Graph.run w limit (S t) n' s') as [trace r']; simpl in *.
      constructor.
      - simpl. eauto.
      - eapply Forall_impl; [|exact IH].
        intros p (Hpi & Hpb & m2 & Hpe). split; [congruence|].
        split; [congruence|]. exists (m1 ++ m2).
        rewrite Hpe, He, app_assoc. reflexivity. }
    destruct n; try exact (Hgo _ eq_refl). constructor.
Qed.

End KeepFacts.

(** X8. Along every run, from any node and any state, and whatever the
    collaborators do, every state has the instruction and the base URL the
    run started with, and its error log is the starting log with entries
    appended: no node removes or rewrites an entry. *)
Theorem run_keeps_inputs_and_log (w : Graph.World) (limit t : nat)
    (n : Graph.node) (s : State.AgentState) :
  Forall
    (fun p =>
       State.instruction (snd p) = State.instruction s
       /\ State.base_url (snd p) = State.base_url s
       /\ exists more, State.errors (snd p) = State.errors s ++ more)
    (fst (Graph.run w limit t n s)).
Proof. apply run_keeps_inputs. Qed.

(** X9. Whatever the state, [handle_error] keeps the number of actions and
    the kind, the target and the value of each: repair rewrites selectors
    only. *)
Theorem handle_error_rewrites_selectors_only (s : State.AgentState) :
  let s' := ErrorHandler.handle_error s in
  List.length (State.parsed_actions s')
  = List.length (State.parsed_actions s)
  /\ map TestAction.action (State.parsed_actions s')
     = map TestAction.action (State.parsed_actions s)
  /\ map TestAction.target (State.parsed_actions s')
     = map TestAction.target (State.parsed_actions s)
  /\ map TestAction.value (State.parsed_actions s')
     = map TestAction.value (State.parsed_actions s).
Proof.
  cbv zeta.
  assert (Hmap :
    forall f n l,
      List.length (map (ErrorHandler.rewrite_one f n) l) = List.length l
      /\ map TestAction.action (map (ErrorHandler.rewrite_one f n) l)
         = map TestAction.action l
      /\ map TestAction.target (map (ErrorHandler.rewrite_one f n) l)
         = map TestAction.target l
      /\ map TestAction.value (map (ErrorHandler.rewrite_one f n) l)
         = map TestAction.value l).
  { intros f n l. rewrite length_map, !map_map.
    repeat split; apply map_ext; intros a;
      unfold ErrorHandler.rewrite_one;
      destruct (ErrorHandler.selector_is f a); reflexivity. }
  destruct (handle_error_cases s)
    as [[msg ->] | [-> | [(f & m & ->) | (f & m & ->)]]];
    try (repeat split; reflexivity); apply Hmap.
Qed.

(** X10. [execute_test] reports a successful execution only when the script
    was not empty, the validation result said valid, and the script's
    [run_test] returned a dict whose success entry is true. *)
Theorem execute_test_success_is_earned
    (py_run : string -> Executor.ScriptRun) (timestamp total_time : Z)
    (s s' : State.AgentState) :
  Executor.execute_test py_run timestamp total_time s
  = Executor.Returned s' ->
  ExecutionResult.success (State.execution_result s') = true ->
  PyStr.truthy (State.generated_code s) = true
  /\ ValidationResult.is_valid (State.validation_result s) = true
  /\ exists d : Executor.RawResult,
       py_run (State.generated_code s)
       = Executor.RunTestReturns (Executor.Dict d)
       /\ Executor.success d = Some true.
Proof.
  unfold Executor.execute_test.
  destruct (PyStr.truthy (State.generated_code s)); simpl.
  2:{ intros H; inversion H; subst. discriminate. }
  destruct (ValidationResult.is_valid (State.validation_result s)); simpl.
  2:{ intros H; inversion H; subst. discriminate. }
  unfold Executor.execute_code_safely.
  destruct (py_run (State.generated_code s)) as [e| |e|[d|ty]];
    try (destruct (Executor.is_exception e));
    intros H; inversion H; subst; simpl; try discriminate.
  intros Hs. repeat split. exists d. split; [reflexivity|].
  destruct (Executor.success d) as [[]|]; [reflexivity | discriminate..].
Qed.

Lemma execute_test_success_is_earned_witness :
  exists d : Executor.RawResult,
    (fun _ : string =>
       Executor.RunTestReturns
         (Executor.Dict
            (Executor.mkRawResult (Some true) (Some []) (Some 7%Z)
               (Some []) None)))
      (State.generated_code (Scenarios.ready_state "def run_test(): pass"))
    = Executor.RunTestReturns (Executor.Dict d)
    /\ Executor.success d = Some true.
Proof.
  apply (execute_test_success_is_earned
           (fun _ =>
              Executor.RunTestReturns
                (Executor.Dict
                   (Executor.mkRawResult (Some true) (Some []) (Some 7%Z)
                      (Some []) None)))
           1767225600 12
           (Scenarios.ready_state "def run_test(): pass")
           (State.set_execution_result
              (State.set_test_file_path
                 (Scenarios.ready_state "def run_test(): pass")
                 "playwright_tests/generated_test_1767225600.py")
              (ExecutionResult.mk true [] 7 [] None)));
    reflexivity.
Defined.

(** ** The failure the report names *)

Section FailureReasonFacts.
Import State.

(** The step whose message [handle_error] takes is the step the report
    names. *)
Lemma first_failed_step_agrees (steps : list StepResult.t) :
  match ErrorHandler.first_step_error steps with
  | Some e =>
      exists step,
        In step steps
        /\ StepResult.status step = Some "fail"
        /\ StepResult.error step = Some e
        /\ Reporter.first_failed_step steps
           = Some ("Step " ++ PyStr.fmt_int (StepResult.step_number step)
                     ++ " (" ++ StepResult.action step ++ "): " ++ e)%string
  | None => Reporter.first_failed_step steps = None
  end.
Proof.
  induction steps as [|step rest IH]; simpl; [reflexivity|].
  unfold Reporter.status_is.
  destruct (StepResult.status step) as [st|] eqn:Hst; simpl.
  - destruct (String.eqb_spec st "fail") as [->|Hne]; simpl.
    + destruct (StepResult.error step) as [e|] eqn:He; simpl.
      * destruct (PyStr.truthy e).
        -- exists step. rewrite He. simpl. auto.
        -- destruct (ErrorHandler.first_step_error rest);
             [|assumption].
           destruct IH as (x & Hin & Hx). exists x. auto.
      * destruct (ErrorHandler.first_step_error rest); [|assumption].
        destruct IH as (x & Hin & Hx). exists x. auto.
    + destruct (ErrorHandler.first_step_error rest); [|assumption].
      destruct IH as (x & Hin & Hx). exists x. auto.
  - destruct (ErrorHandler.first_step_error rest); [|assumption].
    destruct IH as (x & Hin & Hx). exists x. auto.
Qed.

End FailureReasonFacts.

Section FirstFailedStepFacts.

Lemma first_step_error_at (before after : list StepResult.t)
    (step : StepResult.t) (e : string) :
  Forall
    (fun x =>
       ~ (StepResult.status x = Some "fail"
          /\ PyStr.truthy_opt (StepResult.error x) = true))
    before ->
  StepResult.status step = Some "fail" ->
  StepResult.error step = Some e ->
  PyStr.truthy e = true ->
  ErrorHandler.first_step_error (before ++ step :: after) = Some e
  /\ Reporter.first_failed_step (before ++ step :: after)
     = Some ("Step " ++ PyStr.fmt_int (StepResult.step_number step)
               ++ " (" ++ StepResult.action step ++ "): " ++ e)%string.
Proof.
  intros Hbefore Hst Herr He.
  induction Hbefore as [|x rest Hx _ IH]; cbn [List.app].
  - cbn [ErrorHandler.first_step_error Reporter.first_failed_step].
    unfold Reporter.status_is. rewrite Hst, Herr. simpl. rewrite He.
    split; reflexivity.
  - cbn [ErrorHandler.first_step_error Reporter.first_failed_step].
    unfold Reporter.status_is.
    assert (Hskip :
      match StepResult.status x with
      | Some st => String.eqb st "fail"
      | None => false
      end && PyStr.truthy_opt (StepResult.error x) = false).
    { destruct (StepResult.status x) as [st|] eqn:Hsx; [|reflexivity].
      destruct (String.eqb_spec st "fail") as [->|]; [|reflexivity].
      destruct (PyStr.truthy_opt (StepResult.error x)) eqn:Hex;
        [|reflexivity].
      contradiction Hx. split; reflexivity. }
    rewrite Hskip. exact IH.
Qed.

End FirstFailedStepFacts.

(** X11. When the script was valid and the execution failed, take the first
    step, in the order of the steps, that has status "fail" and a non-empty
    message: the message [handle_error] analyses is the message of that
    step, and the failure reason of the report is the number and the action
    of that same step followed by that message, whatever the later steps
    and the run-level message are. *)
Theorem repair_and_report_agree (timestamp : string)
    (s : State.AgentState) (before after : list StepResult.t)
    (step : StepResult.t) (e : string) :
  ValidationResult.is_valid (State.validation_result s) = true ->
  ExecutionResult.success (State.execution_result s) = false ->
  ExecutionResult.steps (State.execution_result s)
  = before ++ step :: after ->
  Forall
    (fun x =>
       ~ (StepResult.status x = Some "fail"
          /\ PyStr.truthy_opt (StepResult.error x) = true))
    before ->
  StepResult.status step = Some "fail" ->
  StepResult.error step = Some e ->
  PyStr.truthy e = true ->
  ErrorHandler.error_message_of s = Some e
  /\ TestReport.failure_reason
       (State.report (Reporter.generate_report timestamp s))
     = Some ("Step " ++ PyStr.fmt_int (StepResult.step_number step)
               ++ " (" ++ StepResult.action step ++ "): " ++ e)%string.
Proof.
  intros Hv Hs Hsteps Hbefore Hst Herr He.
  destruct (first_step_error_at before after step e Hbefore Hst Herr He)
    as [Hhandler Hreport].
  split.
  - unfold ErrorHandler.error_message_of.
    rewrite Hv, Hs, Hsteps, Hhandler. reflexivity.
  - simpl. unfold Reporter.get_failure_reason.
    rewrite Hsteps, Hreport. reflexivity.
Qed.

Lemma repair_and_report_agree_witness :
  ErrorHandler.error_message_of
    (Scenarios.executed_state false
       [ Scenarios.passed_step 1; Scenarios.failed_step 2 None;
         Scenarios.failed_step 3 (Some "element not found");
         Scenarios.failed_step 4 (Some "element not found") ]
       (Some "run failed"))
  = Some "element not found"
  /\ TestReport.failure_reason
       (State.report
          (Reporter.generate_report "2026-01-01 00:00:00"
             (Scenarios.executed_state false
                [ Scenarios.passed_step 1; Scenarios.failed_step 2 None;
                  Scenarios.failed_step 3 (Some "element not found");
                  Scenarios.failed_step 4 (Some "element not found") ]
                (Some "run failed"))))
     = Some "Step 3 (fill): element not found".
Proof.
  apply (repair_and_report_agree "2026-01-01 00:00:00"
           (Scenarios.executed_state false
              [ Scenarios.passed_step 1; Scenarios.failed_step 2 None;
                Scenarios.failed_step 3 (Some "element not found");
                Scenarios.failed_step 4 (Some "element not found") ]
              (Some "run failed"))
           [ Scenarios.passed_step 1; Scenarios.failed_step 2 None ]
           [ Scenarios.failed_step 4 (Some "element not found") ]
           (Scenarios.failed_step 3 (Some "element not found"))
           "element not found");
    try reflexivity.
  constructor; [intros [H _]; discriminate H|].
  constructor; [intros [_ H]; discriminate H | constructor].
Defined.

(** X12. The report has no failure reason exactly when no step failed with
    a message and the run-level message is missing or empty. *)
Theorem failure_reason_none_iff (timestamp : string)
    (s : State.AgentState) :
  TestReport.failure_reason
    (State.report (Reporter.generate_report timestamp s)) = None
  <-> ErrorHandler.first_step_error
        (ExecutionResult.steps (State.execution_result s)) = None
      /\ PyStr.truthy_opt
           (ExecutionResult.error_message (State.execution_result s))
         = false.
Proof.
  simpl. unfold Reporter.get_failure_reason.
  pose proof (first_failed_step_agrees
                (ExecutionResult.steps (State.execution_result s))) as H.
  destruct (ErrorHandler.first_step_error
              (ExecutionResult.steps (State.execution_result s))) as [e|].
  - destruct H as (step & _ & _ & _ & ->).
    split; [discriminate | intros [H _]; discriminate H].
  - rewrite H.
    destruct (ExecutionResult.error_message (State.execution_result s))
      as [m|]; simpl.
    + destruct (PyStr.truthy m).
      * split; [discriminate | intros [_ H']; discriminate H'].
      * split; auto.
    + split; auto.
Qed.

(** ** Cleaning the answer of the language model *)

Section CleanFacts.
Import InstructionParser.

Lemma prefix_strip_prefix (p s : string) :
  String.prefix p s = true -> exists rest, PyStr.strip_prefix p s = Some rest.
Proof.
  revert p. induction s as [|d s IH]; intros [|c p] H; simpl in *;
    try discriminate; eauto.
  destruct (ascii_dec c d) as [->|]; [|discriminate].
  rewrite Ascii.eqb_refl. apply IH. assumption.
Qed.

Lemma prefix_shorter (p r s : string) :
  String.prefix (p ++ r) s = true -> String.prefix p s = true.
Proof.
  revert p. induction s as [|d s IH]; intros [|c p] H; simpl in *;
    try reflexivity; try discriminate.
  destruct (ascii_dec c d); [apply IH; assumption | discriminate].
Qed.

Lemma contains_shorter (p r s : string) :
  PyStr.contains (p ++ r) s = true -> PyStr.contains p s = true.
Proof.
  induction s as [|d s IH]; cbn [PyStr.contains]; intros H;
    apply orb_true_iff in H as [H|H]; try discriminate;
    try (rewrite (prefix_shorter _ _ _ H); reflexivity).
  rewrite (IH H). apply orb_true_r.
Qed.

Lemma partition_split (sep s before after : string) :
  partition sep s = Some (before, after) ->
  s = (before ++ sep ++ after)%string.
Proof.
  revert before. induction s as [|c t IH]; intros before H; simpl in H.
  - destruct (PyStr.strip_prefix sep EmptyString) as [rest|] eqn:E;
      [|discriminate].
    inversion H; subst. apply strip_prefix_split in E. exact E.
  - destruct (PyStr.strip_prefix sep (String c t)) as [rest|] eqn:E.
    + inversion H; subst. apply strip_prefix_split in E. exact E.
    + destruct (partition sep t) as [[b a]|]; [|discriminate].
      inversion H; subst. simpl. f_equal. apply IH. reflexivity.
Qed.

Lemma partition_none (sep s : string) :
  partition sep s = None -> PyStr.contains sep s = false.
Proof.
  induction s as [|c t IH]; cbn [partition PyStr.contains]; intros H.
  - destruct (PyStr.strip_prefix sep EmptyString) eqn:E; [discriminate|].
    destruct (String.prefix sep EmptyString) eqn:P; [|reflexivity].
    apply prefix_strip_prefix in P as [rest P]. congruence.
  - destruct (PyStr.strip_prefix sep (String c t)) eqn:E; [discriminate|].
    destruct (partition sep t) as [[b a]|]; [discriminate|].
    rewrite (IH eq_refl), orb_false_r.
    destruct (String.prefix sep (String c t)) eqn:P; [|reflexivity].
    apply prefix_strip_prefix in P as [rest P]. congruence.
Qed.

(** The text before the first occurrence of a separator has no
    occurrence of it. *)
Lemma partition_before (sep s before after : string) :
  PyStr.truthy sep = true ->
  partition sep s = Some (before, after) ->
  PyStr.contains sep before = false.
Proof.
  intros Hsep. revert before.
  induction s as [|c t IH]; intros before H; simpl in H.
  - destruct (PyStr.strip_prefix sep EmptyString); [|discriminate].
    inversion H; subst. destruct sep; [discriminate Hsep | reflexivity].
  - destruct (PyStr.strip_prefix sep (String c t)) as [rest|] eqn:E.
    + inversion H; subst. destruct sep; [discriminate Hsep | reflexivity].
    + destruct (partition sep t) as [[b a]|] eqn:Hp; [|discriminate].
      inversion H; subst. cbn [PyStr.contains].
      rewrite (IH b eq_refl), orb_false_r.
      destruct (String.prefix sep (String c b)) eqn:P; [|reflexivity].
      apply partition_split in Hp. subst t.
      apply (prefix_append sep (String c b) (sep ++ after)) in P.
      apply prefix_strip_prefix in P as [rest P].
      cbn [String.append] in P. congruence.
Qed.

Lemma split_head_clean (sep s : string) :
  PyStr.truthy sep = true ->
  PyStr.contains sep (nth 0 (split sep s) EmptyString) = false.
Proof.
  intros Hsep. unfold split.
  destruct s as [|c t]; cbn [String.length split_upto].
  - destruct sep; [discriminate Hsep | reflexivity].
  - destruct (partition sep (String c t)) as [[b a]|] eqn:Hp; cbn [nth].
    + apply (partition_before sep _ b a Hsep Hp).
    + apply partition_none. assumption.
Qed.

Lemma lstrip_suffix (s : string) :
  exists ws, s = (ws ++ lstrip s)%string.
Proof.
  induction s as [|c t [ws IH]]; simpl.
  - exists EmptyString. reflexivity.
  - destruct (Re.is_space c).
    + exists (String c ws). simpl. f_equal. assumption.
    + exists EmptyString. reflexivity.
Qed.

Lemma rstrip_prefix (s : string) :
  exists ws, s = (rstrip s ++ ws)%string.
Proof.
  induction s as [|c t [ws IH]]; simpl.
  - exists EmptyString. reflexivity.
  - destruct (rstrip t) as [|d r].
    + destruct (Re.is_space c).
      * exists (String c t). reflexivity.
      * exists ws. simpl. f_equal. assumption.
    + exists ws. simpl. f_equal. assumption.
Qed.

Lemma strip_clean (sep s : string) :
  PyStr.contains sep s = false -> PyStr.contains sep (strip s) = false.
Proof.
  intros H. unfold strip.
  destruct (PyStr.contains sep (rstrip (lstrip s))) eqn:E; [|reflexivity].
  destruct (rstrip_prefix (lstrip s)) as [w2 H2].
  destruct (lstrip_suffix s) as [w1 H1].
  apply (contains_append_l sep _ w2) in E. rewrite <- H2 in E.
  apply (contains_append_r sep w1) in E. rewrite <- H1 in E.
  congruence.
Qed.

Lemma rstrip_idempotent (s : string) : rstrip (rstrip s) = rstrip s.
Proof.
  induction s as [|c t IH]; simpl; [reflexivity|].
  destruct (rstrip t) as [|d r] eqn:E.
  - destruct (Re.is_space c) eqn:Hc; simpl; [reflexivity|].
    rewrite Hc. reflexivity.
  - cbn [rstrip] in *. rewrite IH. reflexivity.
Qed.

Lemma rstrip_keeps_head (c : ascii) (t : string) :
  Re.is_space c = false -> exists t', rstrip (String c t) = String c t'.
Proof.
  intros Hc. simpl. destruct (rstrip t); [rewrite Hc|]; eauto.
Qed.

Lemma strip_idempotent (s : string) : strip (strip s) = strip s.
Proof.
  unfold strip.
  assert (H : lstrip (rstrip (lstrip s)) = rstrip (lstrip s)).
  { assert (Hhead :
      lstrip s = EmptyString
      \/ exists c t, lstrip s = String c t /\ Re.is_space c = false).
    { induction s as [|c t IH]; simpl; [left; reflexivity|].
      destruct (Re.is_space c) eqn:Hc; [exact IH|].
      right. exists c, t. auto. }
    destruct Hhead as [->|(c & t & -> & Hc)]; [reflexivity|].
    destruct (rstrip_keeps_head c t Hc) as [t' ->].
    simpl. rewrite Hc. reflexivity. }
  rewrite H. apply rstrip_idempotent.
Qed.

Lemma clean_json_response_no_fence (response : string) :
  PyStr.contains "```" (clean_json_response response) = false.
Proof.
  unfold clean_json_response. apply strip_clean.
  destruct (PyStr.contains "```json" response).
  - apply split_head_clean. reflexivity.
  - destruct (PyStr.contains "```" response) eqn:E; [|exact E].
    apply split_head_clean. reflexivity.
Qed.

End CleanFacts.

(** X13. The text [clean_json_response] returns never contains a code
    fence, and cleaning it again changes nothing. *)
Theorem clean_json_response_idempotent (response : string) :
  PyStr.contains "```"
    (InstructionParser.clean_json_response response) = false
  /\ InstructionParser.clean_json_response
       (InstructionParser.clean_json_response response)
     = InstructionParser.clean_json_response response.
Proof.
  pose proof (clean_json_response_no_fence response) as Hno.
  split; [exact Hno|].
  set (r := InstructionParser.clean_json_response response) in *.
  assert (Hj : PyStr.contains "```json" r = false).
  { destruct (PyStr.contains "```json" r) eqn:E; [|reflexivity].
    apply (contains_shorter "```" "json") in E. congruence. }
  unfold InstructionParser.clean_json_response at 1.
  rewrite Hj, Hno. subst r.
  unfold InstructionParser.clean_json_response.
  apply strip_idempotent.
Qed.

(** ** Guards *)

(** X14. [execute_test] runs no script that is empty or was not validated:
    in both cases the result does not depend on what running the script
    would do, it is a failed execution with no step and a message, and the
    state is otherwise the one it was given. *)
Theorem unvalidated_script_is_not_run
    (run1 run2 : string -> Executor.ScriptRun) (timestamp total_time : Z)
    (s : State.AgentState) :
  PyStr.truthy (State.generated_code s) = false
  \/ ValidationResult.is_valid (State.validation_result s) = false ->
  Executor.execute_test run1 timestamp total_time s
  = Executor.execute_test run2 timestamp total_time s
  /\ exists msg : string,
       PyStr.truthy msg = true
       /\ Executor.execute_test run1 timestamp total_time s
          = Executor.Returned
              (State.set_execution_result s
                 (ExecutionResult.mk false [] 0 [] (Some msg))).
Proof.
  intros H. unfold Executor.execute_test.
  destruct (PyStr.truthy (State.generated_code s)) eqn:Hc; simpl.
  - destruct H as [H|H]; [discriminate H|]. rewrite H. simpl.
    split; [reflexivity|]. eexists. split; [|reflexivity]. reflexivity.
  - split; [reflexivity|]. eexists. split; [|reflexivity]. reflexivity.
Qed.

Lemma unvalidated_script_is_not_run_witness :
  Executor.execute_test Scenarios.interpreter 1767225600 12
    Scenarios.no_code_state
  = Executor.execute_test (fun _ => Executor.NoRunTest) 1767225600 12
      Scenarios.no_code_state.
Proof.
  apply (unvalidated_script_is_not_run Scenarios.interpreter
           (fun _ => Executor.NoRunTest) 1767225600 12
           Scenarios.no_code_state).
  left. reflexivity.
Defined.

(** X15. A selector that [extract_failed_selector] returns is never empty,
    and the empty message gives none. *)
Theorem extracted_selector_is_not_empty (error_message : string) :
  match ErrorHandler.extract_failed_selector error_message with
  | Some selector =>
      PyStr.truthy selector = true /\ PyStr.truthy error_message = true
  | None => True
  end.
Proof.
  destruct (ErrorHandler.extract_failed_selector error_message)
    as [selector|] eqn:E; [|exact I].
  split.
  - apply (extract_failed_selector_truthy error_message). assumption.
  - apply (extract_failed_selector_message error_message selector).
    assumption.
Qed.
